(** * The portfolio client: state, data loading, views and the admin console

    A shallow embedding of [frontend/src/App.js]: the public [App] component
    (section router, category filter, the two modals, the contact form and
    the initial load) and the [AdminPanel] component (its own load, the
    settings update and the per-item delete).

    React state is a record, one field per [useState] slot, and every
    [setX] is a function that replaces that one field.  An event handler is
    a computation in a small state-and-exception monad over the component
    state together with what the handler does to the outside: the requests
    it issues, what it writes to the console, the alerts it raises and the
    timeouts it arms.  What the network answers is an input of the handler. *)

From Stdlib Require Import ZArith String.
From stdpp Require Import base strings list gmap.

Local Open Scope string_scope.
Local Open Scope Z_scope.

(** ** Data model *)

Record Project := {
  project_id : string;
  project_title : string;
  project_description : string;
  project_category : string;
  project_image_url : string;
  software_used : list string;
  gallery_images : option (list string)
}.

Record BlogPost := {
  post_id : string;
  post_title : string;
  excerpt : string;
  content : string;
  post_category : string;
  post_image_url : string;
  read_time : Z;
  tags : list string
}.

Record Testimonial := {
  testimonial_id : string;
  testimonial_name : string;
  role : string;
  company : string;
  testimonial_content : string;
  testimonial_image_url : string;
  rating : Z
}.

(** The settings object is used as a map from field names to values; it
    starts as the empty object [{}]. *)
Inductive SettingsValue :=
  | SText (s : string)
  | SLinks (links : list (string * string)).

Abbreviation Settings := (gmap string SettingsValue).

Record ContactForm := {
  name : string;
  email : string;
  message : string
}.

Definition emptyContactForm : ContactForm :=
  {| name := ""; email := ""; message := "" |}.

(** ** Requests and responses *)

Definition BACKEND_URL : string := "http://localhost:8001".

Inductive Method := GET | POST | PUT | DELETE.

Inductive Payload :=
  | NoBody
  | ContactBody (c : ContactForm)
  | SettingsBody (s : Settings).

Record Request := {
  method : Method;
  url : string;
  body : Payload
}.

Definition get_request (path : string) : Request :=
  {| method := GET; url := BACKEND_URL ++ path; body := NoBody |}.

(** A response carries its status and what [response.json()] would give:
    [None] when the body is not JSON, in which case [json()] rejects.  A
    body that parses is taken at the shape the data model gives the
    endpoint, whatever the status. *)
Record Response (T : Type) := {
  status : Z;
  json_body : option T
}.
Arguments status {T} _.
Arguments json_body {T} _.

(** [response.ok] is true exactly for the statuses 200..299. *)
Definition ok {T} (r : Response T) : bool :=
  (200 <=? status r) && (status r <=? 299).

(** What a [fetch] settles to: the promise rejects (a network failure) or
    resolves with a response, whatever its status. *)
Inductive Outcome (T : Type) :=
  | Rejected (error : string)
  | Resolved (response : Response T).
Arguments Rejected {T} _.
Arguments Resolved {T} _.

(** ** Effects outside the component state *)

Record Effects := {
  requests : list Request;
  console : list (string * string);
  alerts : list string;
  timeouts : list Z
}.

Definition noEffects : Effects :=
  {| requests := []; console := []; alerts := []; timeouts := [] |}.

(** A component instance: its state slots and the effects so far. *)
Record World (S : Type) := {
  state : S;
  effects : Effects
}.
Arguments state {S} _.
Arguments effects {S} _.
Arguments Build_World {S} _ _.

(** ** The handler monad: state, and exceptions for [throw] and rejections *)

Inductive Result (A : Type) :=
  | Return (a : A)
  | Throw (error : string).
Arguments Return {A} _.
Arguments Throw {A} _.

Definition Handler (S A : Type) : Type := World S → Result A * World S.

Section Handler.
Context {S : Type}.

#[export] Instance handler_ret : MRet (Handler S) :=
  λ A a w, (Return a, w).

#[export] Instance handler_bind : MBind (Handler S) :=
  λ A B k m w,
    match m w with
    | (Return a, w') => k a w'
    | (Throw e, w') => (Throw e, w')
    end.

Definition throw {A} (e : string) : Handler S A :=
  λ w, (Throw e, w).

(** [try { body } catch (error) { handler } finally { final }]. *)
Definition try_catch_finally {A}
    (body : Handler S A) (handler : string → Handler S A)
    (final : Handler S unit) : Handler S A :=
  λ w,
    let '(r, w1) :=
      match body w with
      | (Return a, w') => (Return a, w')
      | (Throw e, w') => handler e w'
      end in
    match final w1 with
    | (Return _, w2) => (r, w2)
    | (Throw e, w2) => (Throw e, w2)
    end.

Definition try_catch {A}
    (body : Handler S A) (handler : string → Handler S A) : Handler S A :=
  try_catch_finally body handler (mret ()).

Definition read : Handler S S :=
  λ w, (Return (state w), w).

(** A [setX(v)] call. *)
Definition setState (f : S → S) : Handler S unit :=
  λ w, (Return (), {| state := f (state w); effects := effects w |}).

Definition effect (f : Effects → Effects) : Handler S unit :=
  λ w, (Return (), {| state := state w; effects := f (effects w) |}).

(** Calling [fetch(request)] sends the request at once. *)
Definition send (r : Request) : Handler S unit :=
  effect (λ e, {| requests := requests e ++ [r]; console := console e;
                  alerts := alerts e; timeouts := timeouts e |}).

(** [await] of a fetch promise: a rejection is thrown into the handler. *)
Definition await {T} (o : Outcome T) : Handler S (Response T) :=
  match o with
  | Rejected e => throw e
  | Resolved r => mret r
  end.

Definition fetch {T} (r : Request) (o : Outcome T) : Handler S (Response T) :=
  send r;; await o.

(** [await response.json()]. *)
Definition json {T} (r : Response T) : Handler S T :=
  match json_body r with
  | Some v => mret v
  | None => throw "SyntaxError"
  end.

Definition console_error (label error : string) : Handler S unit :=
  effect (λ e, {| requests := requests e; console := console e ++ [(label, error)];
                  alerts := alerts e; timeouts := timeouts e |}).

Definition alert (text : string) : Handler S unit :=
  effect (λ e, {| requests := requests e; console := console e;
                  alerts := alerts e ++ [text]; timeouts := timeouts e |}).

(** [setTimeout(callback, delay)]: the callback is what the component says
    it is; only the armed delay is recorded here. *)
Definition setTimeout (delay : Z) : Handler S unit :=
  effect (λ e, {| requests := requests e; console := console e;
                  alerts := alerts e; timeouts := timeouts e ++ [delay] |}).

(** The world a handler leaves behind, and how it ended. *)
Definition exec {A} (h : Handler S A) (w : World S) : World S := (h w).2.
Definition outcome {A} (h : Handler S A) (w : World S) : Result A := (h w).1.

End Handler.

(** ** The public client: [App] *)

Module App.

Inductive View :=
  | HeroSection
  | AboutSection
  | SkillsSection
  | PortfolioSection
  | TestimonialsSection
  | BlogSection
  | ContactSection.

(** One field per [useState] slot of [App]. *)
Record State := {
  activeSection : string;
  selectedProject : option Project;
  selectedBlogPost : option BlogPost;
  projects : list Project;
  blogPosts : list BlogPost;
  testimonials : list Testimonial;
  settings : Settings;
  projectFilter : string;
  projectCategories : list string;
  contactForm : ContactForm;
  isSubmitting : bool;
  showAdmin : bool;
  isMenuOpen : bool
}.

(** The arguments of the [useState] calls. *)
Definition initial : State := {|
  activeSection := "home";
  selectedProject := None;
  selectedBlogPost := None;
  projects := [];
  blogPosts := [];
  testimonials := [];
  settings := ∅;
  projectFilter := "All";
  projectCategories := [];
  contactForm := emptyContactForm;
  isSubmitting := false;
  showAdmin := false;
  isMenuOpen := false
|}.

Definition mounted : World State :=
  {| state := initial; effects := noEffects |}.

Definition setActiveSection (v : string) (s : State) : State :=
  {| activeSection := v; selectedProject := selectedProject s;
     selectedBlogPost := selectedBlogPost s; projects := projects s;
     blogPosts := blogPosts s; testimonials := testimonials s;
     settings := settings s; projectFilter := projectFilter s;
     projectCategories := projectCategories s; contactForm := contactForm s;
     isSubmitting := isSubmitting s; showAdmin := showAdmin s;
     isMenuOpen := isMenuOpen s |}.

Definition setSelectedProject (v : option Project) (s : State) : State :=
  {| activeSection := activeSection s; selectedProject := v;
     selectedBlogPost := selectedBlogPost s; projects := projects s;
     blogPosts := blogPosts s; testimonials := testimonials s;
     settings := settings s; projectFilter := projectFilter s;
     projectCategories := projectCategories s; contactForm := contactForm s;
     isSubmitting := isSubmitting s; showAdmin := showAdmin s;
     isMenuOpen := isMenuOpen s |}.

Definition setSelectedBlogPost (v : option BlogPost) (s : State) : State :=
  {| activeSection := activeSection s; selectedProject := selectedProject s;
     selectedBlogPost := v; projects := projects s;
     blogPosts := blogPosts s; testimonials := testimonials s;
     settings := settings s; projectFilter := projectFilter s;
     projectCategories := projectCategories s; contactForm := contactForm s;
     isSubmitting := isSubmitting s; showAdmin := showAdmin s;
     isMenuOpen := isMenuOpen s |}.

Definition setProjects (v : list Project) (s : State) : State :=
  {| activeSection := activeSection s; selectedProject := selectedProject s;
     selectedBlogPost := selectedBlogPost s; projects := v;
     blogPosts := blogPosts s; testimonials := testimonials s;
     settings := settings s; projectFilter := projectFilter s;
     projectCategories := projectCategories s; contactForm := contactForm s;
     isSubmitting := isSubmitting s; showAdmin := showAdmin s;
     isMenuOpen := isMenuOpen s |}.

Definition setBlogPosts (v : list BlogPost) (s : State) : State :=
  {| activeSection := activeSection s; selectedProject := selectedProject s;
     selectedBlogPost := selectedBlogPost s; projects := projects s;
     blogPosts := v; testimonials := testimonials s;
     settings := settings s; projectFilter := projectFilter s;
     projectCategories := projectCategories s; contactForm := contactForm s;
     isSubmitting := isSubmitting s; showAdmin := showAdmin s;
     isMenuOpen := isMenuOpen s |}.

Definition setTestimonials (v : list Testimonial) (s : State) : State :=
  {| activeSection := activeSection s; selectedProject := selectedProject s;
     selectedBlogPost := selectedBlogPost s; projects := projects s;
     blogPosts := blogPosts s; testimonials := v;
     settings := settings s; projectFilter := projectFilter s;
     projectCategories := projectCategories s; contactForm := contactForm s;
     isSubmitting := isSubmitting s; showAdmin := showAdmin s;
     isMenuOpen := isMenuOpen s |}.

Definition setSettings (v : Settings) (s : State) : State :=
  {| activeSection := activeSection s; selectedProject := selectedProject s;
     selectedBlogPost := selectedBlogPost s; projects := projects s;
     blogPosts := blogPosts s; testimonials := testimonials s;
     settings := v; projectFilter := projectFilter s;
     projectCategories := projectCategories s; contactForm := contactForm s;
     isSubmitting := isSubmitting s; showAdmin := showAdmin s;
     isMenuOpen := isMenuOpen s |}.

Definition setProjectFilter (v : string) (s : State) : State :=
  {| activeSection := activeSection s; selectedProject := selectedProject s;
     selectedBlogPost := selectedBlogPost s; projects := projects s;
     blogPosts := blogPosts s; testimonials := testimonials s;
     settings := settings s; projectFilter := v;
     projectCategories := projectCategories s; contactForm := contactForm s;
     isSubmitting := isSubmitting s; showAdmin := showAdmin s;
     isMenuOpen := isMenuOpen s |}.

Definition setProjectCategories (v : list string) (s : State) : State :=
  {| activeSection := activeSection s; selectedProject := selectedProject s;
     selectedBlogPost := selectedBlogPost s; projects := projects s;
     blogPosts := blogPosts s; testimonials := testimonials s;
     settings := settings s; projectFilter := projectFilter s;
     projectCategories := v; contactForm := contactForm s;
     isSubmitting := isSubmitting s; showAdmin := showAdmin s;
     isMenuOpen := isMenuOpen s |}.

Definition setContactForm (v : ContactForm) (s : State) : State :=
  {| activeSection := activeSection s; selectedProject := selectedProject s;
     selectedBlogPost := selectedBlogPost s; projects := projects s;
     blogPosts := blogPosts s; testimonials := testimonials s;
     settings := settings s; projectFilter := projectFilter s;
     projectCategories := projectCategories s; contactForm := v;
     isSubmitting := isSubmitting s; showAdmin := showAdmin s;
     isMenuOpen := isMenuOpen s |}.

Definition setIsSubmitting (v : bool) (s : State) : State :=
  {| activeSection := activeSection s; selectedProject := selectedProject s;
     selectedBlogPost := selectedBlogPost s; projects := projects s;
     blogPosts := blogPosts s; testimonials := testimonials s;
     settings := settings s; projectFilter := projectFilter s;
     projectCategories := projectCategories s; contactForm := contactForm s;
     isSubmitting := v; showAdmin := showAdmin s;
     isMenuOpen := isMenuOpen s |}.

Definition setShowAdmin (v : bool) (s : State) : State :=
  {| activeSection := activeSection s; selectedProject := selectedProject s;
     selectedBlogPost := selectedBlogPost s; projects := projects s;
     blogPosts := blogPosts s; testimonials := testimonials s;
     settings := settings s; projectFilter := projectFilter s;
     projectCategories := projectCategories s; contactForm := contactForm s;
     isSubmitting := isSubmitting s; showAdmin := v;
     isMenuOpen := isMenuOpen s |}.

Definition setIsMenuOpen (v : bool) (s : State) : State :=
  {| activeSection := activeSection s; selectedProject := selectedProject s;
     selectedBlogPost := selectedBlogPost s; projects := projects s;
     blogPosts := blogPosts s; testimonials := testimonials s;
     settings := settings s; projectFilter := projectFilter s;
     projectCategories := projectCategories s; contactForm := contactForm s;
     isSubmitting := isSubmitting s; showAdmin := showAdmin s;
     isMenuOpen := v |}.

(** *** The initial load *)

(** What the five reads of [fetchData] settle to, in the order of the
    array given to [Promise.all]. *)
Record Reads := {
  projectsRead : Outcome (list Project);
  blogRead : Outcome (list BlogPost);
  testimonialsRead : Outcome (list Testimonial);
  settingsRead : Outcome Settings;
  categoriesRead : Outcome (list string)
}.

(** All five requests are sent before anything is awaited; [Promise.all]
    then rejects if one of them does (here: with the first rejection in
    array order) and otherwise gives the five responses.  The body of each
    is parsed next, and only then are the five slots set.  Bodies have the
    shapes of the data model here; [AppRaw.fetchData] below is the same
    function with nothing assumed about them. *)
Definition fetchData (o : Reads) : Handler State unit :=
  try_catch
    (send (get_request "/api/projects");;
     send (get_request "/api/blog");;
     send (get_request "/api/testimonials");;
     send (get_request "/api/settings");;
     send (get_request "/api/projects/categories");;
     projectsRes ← await (projectsRead o);
     blogRes ← await (blogRead o);
     testimonialsRes ← await (testimonialsRead o);
     settingsRes ← await (settingsRead o);
     categoriesRes ← await (categoriesRead o);
     projectsData ← json projectsRes;
     blogData ← json blogRes;
     testimonialsData ← json testimonialsRes;
     settingsData ← json settingsRes;
     categoriesData ← json categoriesRes;
     setState (setProjects projectsData);;
     setState (setBlogPosts blogData);;
     setState (setTestimonials testimonialsData);;
     setState (setSettings settingsData);;
     setState (setProjectCategories ("All" :: categoriesData)))
    (λ error, console_error "Error fetching data:" error).

(** *** The filter projector *)

Definition filteredProjects (s : State) : list Project :=
  if String.eqb (projectFilter s) "All"
  then projects s
  else filter (λ project, project_category project = projectFilter s) (projects s).

(** *** The contact form *)

Definition handleContactSubmit (o : Outcome unit) : Handler State unit :=
  setState (setIsSubmitting true);;
  try_catch_finally
    (s ← read;
     response ← fetch {| method := POST; url := BACKEND_URL ++ "/api/contact";
                         body := ContactBody (contactForm s) |} o;
     if ok response
     then alert "Message sent successfully!";;
          setState (setContactForm emptyContactForm)
     else throw "Failed to send message")
    (λ error,
       console_error "Error sending message:" error;;
       alert "Failed to send message. Please try again.")
    (setState (setIsSubmitting false)).

(** *** The view router *)

Definition renderSection (s : State) : View :=
  if String.eqb (activeSection s) "home" then HeroSection
  else if String.eqb (activeSection s) "about" then AboutSection
  else if String.eqb (activeSection s) "portfolio" then PortfolioSection
  else if String.eqb (activeSection s) "blog" then BlogSection
  else if String.eqb (activeSection s) "skills" then SkillsSection
  else if String.eqb (activeSection s) "contact" then ContactSection
  else HeroSection.

(** The children of [<main>]. *)
Definition main (s : State) : list View :=
  renderSection s ::
  (if String.eqb (activeSection s) "home"
   then [AboutSection; SkillsSection; PortfolioSection; TestimonialsSection;
         BlogSection; ContactSection]
   else []).

(** The sections the navigation bar offers. *)
Definition sections : list string :=
  ["home"; "about"; "portfolio"; "blog"; "skills"; "contact"].

(** *** The modals *)

(** What an open overlay shows. *)
Record Overlay := {
  heading : string;
  image : string;
  text : string;
  labels : list string;
  gallery : list string
}.

(** [{project && (...)}]: nothing is rendered for [null]; for a project
    the overlay shows its title, image, description, software and, when it
    has a non-empty gallery, the gallery. *)
Definition ProjectModal (project : option Project) : option Overlay :=
  match project with
  | None => None
  | Some p =>
      Some {| heading := project_title p;
              image := project_image_url p;
              text := project_description p;
              labels := software_used p;
              gallery := default [] (gallery_images p) |}
  end.

Definition BlogModal (post : option BlogPost) : option Overlay :=
  match post with
  | None => None
  | Some p =>
      Some {| heading := post_title p;
              image := post_image_url p;
              text := content p;
              labels := tags p;
              gallery := [] |}
  end.

(** The two modals as [App] mounts them, each on its own slot. *)
Definition projectOverlay (s : State) : option Overlay :=
  ProjectModal (selectedProject s).
Definition blogOverlay (s : State) : option Overlay :=
  BlogModal (selectedBlogPost s).

(** *** User and network events *)

Inductive Event :=
  | Mount (o : Reads)
  | ClickNav (section : string)
  | ClickMobileNav (section : string)
  | ClickGetInTouch
  | ClickViewPortfolio
  | ClickMenuButton
  | ClickCategory (category : string)
  | ClickProject (project : Project)
  | CloseProjectModal
  | ClickPost (post : BlogPost)
  | CloseBlogModal
  | EditName (value : string)
  | EditEmail (value : string)
  | EditMessage (value : string)
  | SubmitContactForm (o : Outcome unit)
  | ClickAdminButton.

Definition handle (e : Event) : Handler State unit :=
  match e with
  | Mount o => fetchData o
  | ClickNav section => setState (setActiveSection section)
  | ClickMobileNav section =>
      setState (setActiveSection section);; setState (setIsMenuOpen false)
  | ClickGetInTouch => setState (setActiveSection "contact")
  | ClickViewPortfolio => setState (setActiveSection "portfolio")
  | ClickMenuButton => s ← read; setState (setIsMenuOpen (negb (isMenuOpen s)))
  | ClickCategory category => setState (setProjectFilter category)
  | ClickProject project => setState (setSelectedProject (Some project))
  | CloseProjectModal => setState (setSelectedProject None)
  | ClickPost post => setState (setSelectedBlogPost (Some post))
  | CloseBlogModal => setState (setSelectedBlogPost None)
  | EditName value =>
      s ← read;
      setState (setContactForm {| name := value; email := email (contactForm s);
                                  message := message (contactForm s) |})
  | EditEmail value =>
      s ← read;
      setState (setContactForm {| name := name (contactForm s); email := value;
                                  message := message (contactForm s) |})
  | EditMessage value =>
      s ← read;
      setState (setContactForm {| name := name (contactForm s);
                                  email := email (contactForm s);
                                  message := value |})
  | SubmitContactForm o => handleContactSubmit o
  | ClickAdminButton => s ← read; setState (setShowAdmin (negb (showAdmin s)))
  end.

Fixpoint run (es : list Event) (w : World State) : World State :=
  match es with
  | [] => w
  | e :: es' => run es' (exec (handle e) w)
  end.

End App.

(** ** The admin console: [AdminPanel] *)

Module AdminPanel.

(** One field per [useState] slot of [AdminPanel]; the console keeps its
    own copies of the collections and has no category list. *)
Record State := {
  activeTab : string;
  settings : Settings;
  projects : list Project;
  blogPosts : list BlogPost;
  testimonials : list Testimonial;
  loading : bool;
  message : string
}.

Definition initial : State := {|
  activeTab := "settings";
  settings := ∅;
  projects := [];
  blogPosts := [];
  testimonials := [];
  loading := false;
  message := ""
|}.

Definition mounted : World State :=
  {| state := initial; effects := noEffects |}.

Definition setActiveTab (v : string) (s : State) : State :=
  {| activeTab := v; settings := settings s; projects := projects s;
     blogPosts := blogPosts s; testimonials := testimonials s;
     loading := loading s; message := message s |}.

Definition setSettings (v : Settings) (s : State) : State :=
  {| activeTab := activeTab s; settings := v; projects := projects s;
     blogPosts := blogPosts s; testimonials := testimonials s;
     loading := loading s; message := message s |}.

Definition setProjects (v : list Project) (s : State) : State :=
  {| activeTab := activeTab s; settings := settings s; projects := v;
     blogPosts := blogPosts s; testimonials := testimonials s;
     loading := loading s; message := message s |}.

Definition setBlogPosts (v : list BlogPost) (s : State) : State :=
  {| activeTab := activeTab s; settings := settings s; projects := projects s;
     blogPosts := v; testimonials := testimonials s;
     loading := loading s; message := message s |}.

Definition setTestimonials (v : list Testimonial) (s : State) : State :=
  {| activeTab := activeTab s; settings := settings s; projects := projects s;
     blogPosts := blogPosts s; testimonials := v;
     loading := loading s; message := message s |}.

Definition setLoading (v : bool) (s : State) : State :=
  {| activeTab := activeTab s; settings := settings s; projects := projects s;
     blogPosts := blogPosts s; testimonials := testimonials s;
     loading := v; message := message s |}.

Definition setMessage (v : string) (s : State) : State :=
  {| activeTab := activeTab s; settings := settings s; projects := projects s;
     blogPosts := blogPosts s; testimonials := testimonials s;
     loading := loading s; message := v |}.

(** [{message && (<div>{message}</div>)}]: the banner is rendered for a
    non-empty message and shows it. *)
Definition banner (s : State) : option string :=
  if String.eqb (message s) "" then None else Some (message s).

(** The callback both [setTimeout] calls arm: [() => setMessage('')]. *)
Definition messageTimeout : Handler State unit :=
  setState (setMessage "").

(** *** Loading the four collections *)

Record Reads := {
  settingsRead : Outcome Settings;
  projectsRead : Outcome (list Project);
  blogRead : Outcome (list BlogPost);
  testimonialsRead : Outcome (list Testimonial)
}.

(** [fetchData()] up to its first [await]: the loading flag is raised and
    the four requests are sent.  A caller that does not await the call
    (as [deleteItem] does) goes on from here. *)
Definition fetchData_start : Handler State unit :=
  setState (setLoading true);;
  send (get_request "/api/settings");;
  send (get_request "/api/projects");;
  send (get_request "/api/blog");;
  send (get_request "/api/testimonials").

(** The rest of [fetchData()], run once the four reads have settled. *)
Definition fetchData_settle (o : Reads) : Handler State unit :=
  try_catch_finally
    (settingsRes ← await (settingsRead o);
     projectsRes ← await (projectsRead o);
     blogRes ← await (blogRead o);
     testimonialsRes ← await (testimonialsRead o);
     settingsData ← json settingsRes;
     projectsData ← json projectsRes;
     blogData ← json blogRes;
     testimonialsData ← json testimonialsRes;
     setState (setSettings settingsData);;
     setState (setProjects projectsData);;
     setState (setBlogPosts blogData);;
     setState (setTestimonials testimonialsData))
    (λ error,
       console_error "Error fetching data:" error;;
       setState (setMessage "Error loading data"))
    (setState (setLoading false)).

Definition fetchData (o : Reads) : Handler State unit :=
  fetchData_start;; fetchData_settle o.

(** *** Replacing the settings *)

Definition updateSettings (updatedSettings : Settings) (o : Outcome Settings)
    : Handler State unit :=
  setState (setLoading true);;
  try_catch_finally
    (response ← fetch {| method := PUT; url := BACKEND_URL ++ "/api/settings";
                         body := SettingsBody updatedSettings |} o;
     if ok response
     then setState (setMessage "Settings updated successfully!");;
          setState (setSettings updatedSettings);;
          setTimeout 3000
     else throw "Failed to update settings")
    (λ error,
       console_error "Error updating settings:" error;;
       setState (setMessage "Error updating settings"))
    (setState (setLoading false)).

(** *** Deleting an item *)

(** [confirmed] is the answer to [window.confirm].  On a successful delete
    [fetchData()] is called and not awaited, so [finally] runs right after
    its requests are sent; the reads settle later ([fetchData_settle]). *)
Definition deleteItem (confirmed : bool) (type id : string) (o : Outcome unit)
    : Handler State unit :=
  if negb confirmed then mret () else
  setState (setLoading true);;
  try_catch_finally
    (response ← fetch {| method := DELETE;
                         url := BACKEND_URL ++ "/api/" ++ type ++ "/" ++ id;
                         body := NoBody |} o;
     if ok response
     then setState (setMessage (type ++ " deleted successfully!"));;
          setTimeout 3000;;
          fetchData_start
     else throw ("Failed to delete " ++ type))
    (λ error,
       console_error ("Error deleting " ++ type ++ ":") error;;
       setState (setMessage ("Error deleting " ++ type)))
    (setState (setLoading false)).

End AdminPanel.

(** ** The load over bodies as they come *)

(** What [response.json()] gives for a body that parses: any JSON value,
    of the endpoint's shape or not.  Numbers are integers here. *)
Local Unset Elimination Schemes.
Inductive JSON :=
  | JNull
  | JBool (b : bool)
  | JNumber (n : Z)
  | JString (s : string)
  | JArray (items : list JSON)
  | JObject (members : list (string * JSON)).
Local Set Elimination Schemes.

(** The characters a string iterates over, each as a string of its own. *)
Definition characters (s : string) : list string :=
  (λ c, String c EmptyString) <$> list_ascii_of_string s.

(** [...categoriesData] inside an array literal: the items of an array,
    the characters of a string, and a [TypeError] for every other value,
    none of which is iterable. *)
Definition spread (categoriesData : JSON) : Result (list JSON) :=
  match categoriesData with
  | JArray items => Return items
  | JString s => Return (JString <$> characters s)
  | _ => Throw "TypeError: categoriesData is not iterable"
  end.

(** [App.fetchData] once more, this time with nothing assumed about the
    bodies: the five slots it writes hold whatever value was stored.  It
    touches no other slot of [App]. *)
Module AppRaw.

Record State := {
  projects : JSON;
  blogPosts : JSON;
  testimonials : JSON;
  settings : JSON;
  projectCategories : list JSON
}.

(** [useState([])], [useState({})]. *)
Definition initial : State := {|
  projects := JArray [];
  blogPosts := JArray [];
  testimonials := JArray [];
  settings := JObject [];
  projectCategories := []
|}.

Definition mounted : World State :=
  {| state := initial; effects := noEffects |}.

Definition setProjects (v : JSON) (s : State) : State :=
  {| projects := v; blogPosts := blogPosts s; testimonials := testimonials s;
     settings := settings s; projectCategories := projectCategories s |}.

Definition setBlogPosts (v : JSON) (s : State) : State :=
  {| projects := projects s; blogPosts := v; testimonials := testimonials s;
     settings := settings s; projectCategories := projectCategories s |}.

Definition setTestimonials (v : JSON) (s : State) : State :=
  {| projects := projects s; blogPosts := blogPosts s; testimonials := v;
     settings := settings s; projectCategories := projectCategories s |}.

Definition setSettings (v : JSON) (s : State) : State :=
  {| projects := projects s; blogPosts := blogPosts s;
     testimonials := testimonials s; settings := v;
     projectCategories := projectCategories s |}.

Definition setProjectCategories (v : list JSON) (s : State) : State :=
  {| projects := projects s; blogPosts := blogPosts s;
     testimonials := testimonials s; settings := settings s;
     projectCategories := v |}.

Record Reads := {
  projectsRead : Outcome JSON;
  blogRead : Outcome JSON;
  testimonialsRead : Outcome JSON;
  settingsRead : Outcome JSON;
  categoriesRead : Outcome JSON
}.

(** An expression that may throw, evaluated inside a handler. *)
Definition evaluate {A} (r : Result A) : Handler State A :=
  λ w, (r, w).

(** The argument of the last setter, [['All', ...categoriesData]], is
    evaluated after the four setters before it have run. *)
Definition fetchData (o : Reads) : Handler State unit :=
  try_catch
    (send (get_request "/api/projects");;
     send (get_request "/api/blog");;
     send (get_request "/api/testimonials");;
     send (get_request "/api/settings");;
     send (get_request "/api/projects/categories");;
     projectsRes ← await (projectsRead o);
     blogRes ← await (blogRead o);
     testimonialsRes ← await (testimonialsRead o);
     settingsRes ← await (settingsRead o);
     categoriesRes ← await (categoriesRead o);
     projectsData ← json projectsRes;
     blogData ← json blogRes;
     testimonialsData ← json testimonialsRes;
     settingsData ← json settingsRes;
     categoriesData ← json categoriesRes;
     setState (setProjects projectsData);;
     setState (setBlogPosts blogData);;
     setState (setTestimonials testimonialsData);;
     setState (setSettings settingsData);;
     categories ← evaluate (spread categoriesData);
     setState (setProjectCategories (JString "All" :: categories)))
    (λ error, console_error "Error fetching data:" error).

End AppRaw.

(** The data model as JSON, the shape each endpoint is meant to answer
    with. *)
Definition encodeStrings (l : list string) : JSON := JArray (JString <$> l).

Definition encodeProject (p : Project) : JSON :=
  JObject [("id", JString (project_id p));
           ("title", JString (project_title p));
           ("description", JString (project_description p));
           ("category", JString (project_category p));
           ("image_url", JString (project_image_url p));
           ("software_used", encodeStrings (software_used p));
           ("gallery_images",
            match gallery_images p with
            | Some images => encodeStrings images
            | None => JNull
            end)].

Definition encodeBlogPost (p : BlogPost) : JSON :=
  JObject [("id", JString (post_id p));
           ("title", JString (post_title p));
           ("excerpt", JString (excerpt p));
           ("content", JString (content p));
           ("category", JString (post_category p));
           ("image_url", JString (post_image_url p));
           ("read_time", JNumber (read_time p));
           ("tags", encodeStrings (tags p))].

Definition encodeTestimonial (t : Testimonial) : JSON :=
  JObject [("id", JString (testimonial_id t));
           ("name", JString (testimonial_name t));
           ("role", JString (role t));
           ("company", JString (company t));
           ("content", JString (testimonial_content t));
           ("image_url", JString (testimonial_image_url t));
           ("rating", JNumber (rating t))].

Definition encodeSettingsValue (v : SettingsValue) : JSON :=
  match v with
  | SText s => JString s
  | SLinks links => JObject ((λ l, (l.1, JString l.2)) <$> links)
  end.

Definition encodeSettings (s : Settings) : JSON :=
  JObject ((λ m, (m.1, encodeSettingsValue m.2)) <$> map_to_list s).

Definition encodeOutcome {T} (encode : T → JSON) (o : Outcome T) : Outcome JSON :=
  match o with
  | Rejected e => Rejected e
  | Resolved r =>
      Resolved {| status := status r; json_body := encode <$> json_body r |}
  end.

Definition encodeReads (o : App.Reads) : AppRaw.Reads := {|
  AppRaw.projectsRead :=
    encodeOutcome (λ ps, JArray (encodeProject <$> ps)) (App.projectsRead o);
  AppRaw.blogRead :=
    encodeOutcome (λ bs, JArray (encodeBlogPost <$> bs)) (App.blogRead o);
  AppRaw.testimonialsRead :=
    encodeOutcome (λ ts, JArray (encodeTestimonial <$> ts)) (App.testimonialsRead o);
  AppRaw.settingsRead := encodeOutcome encodeSettings (App.settingsRead o);
  AppRaw.categoriesRead := encodeOutcome encodeStrings (App.categoriesRead o)
|}.

(** The five data slots of [App], as the values they hold. *)
Definition encodeState (s : App.State) : AppRaw.State := {|
  AppRaw.projects := JArray (encodeProject <$> App.projects s);
  AppRaw.blogPosts := JArray (encodeBlogPost <$> App.blogPosts s);
  AppRaw.testimonials := JArray (encodeTestimonial <$> App.testimonials s);
  AppRaw.settings := encodeSettings (App.settings s);
  AppRaw.projectCategories := JString <$> App.projectCategories s
|}.

Definition encodeWorld (w : World App.State) : World AppRaw.State :=
  {| state := encodeState (state w); effects := effects w |}.

(** A load in which the categories endpoint answers 500 with a JSON error
    object, the other four answering as they should. *)
Definition categoriesUnavailable : AppRaw.Reads := {|
  AppRaw.projectsRead :=
    Resolved {| status := 200;
                json_body := Some (JArray [JObject [("id", JString "p1");
                                                    ("title", JString "Villa");
                                                    ("category", JString "Exterior")]]) |};
  AppRaw.blogRead := Resolved {| status := 200; json_body := Some (JArray []) |};
  AppRaw.testimonialsRead :=
    Resolved {| status := 200; json_body := Some (JArray []) |};
  AppRaw.settingsRead :=
    Resolved {| status := 200;
                json_body := Some (JObject [("name", JString "Rabiul Hasan")]) |};
  AppRaw.categoriesRead :=
    Resolved {| status := 500;
                json_body := Some (JObject [("detail",
                                             JString "Internal Server Error")]) |}
|}.

(** ** What the components render *)

(** [Array(n)] for an integer [n]: an array of [n] empty slots, or a
    [RangeError] when [n] is negative or above 2^32 - 1. *)
Definition Array_ (n : Z) : Result (list ()) :=
  if (0 <=? n) && (n <=? 4294967295)
  then Return (replicate (Z.to_nat n) ())
  else Throw "RangeError: Invalid array length".

(** [list.map(f)] for an [f] that may throw: the first exception ends the
    traversal. *)
Fixpoint mapThrowing {A B} (f : A → Result B) (l : list A) : Result (list B) :=
  match l with
  | [] => Return []
  | x :: l' =>
      match f x with
      | Throw e => Throw e
      | Return y =>
          match mapThrowing f l' with
          | Throw e => Throw e
          | Return ys => Return (y :: ys)
          end
      end
  end.

Inductive Star := StarGlyph.

(** [[...Array(testimonial.rating)].map((_, i) => <star/>)], the star row
    of a testimonial in both components. *)
Definition starRow (t : Testimonial) : Result (list Star) :=
  match Array_ (rating t) with
  | Throw e => Throw e
  | Return slots => Return ((λ _, StarGlyph) <$> slots)
  end.

Module AppView.
Import App.

(** [Navigation]: one button per section, in the order of the array, each
    highlighted when it names the active section.  The button text is not
    modelled. *)
Record NavButton := {
  target : string;
  highlighted : bool
}.

Definition Navigation (s : State) : list NavButton :=
  (λ section, {| target := section;
                 highlighted := String.eqb (activeSection s) section |})
    <$> sections.

(** The mobile menu repeats the buttons while [isMenuOpen]. *)
Definition mobileMenu (s : State) : option (list NavButton) :=
  if isMenuOpen s then Some (Navigation s) else None.

(** [PortfolioSection]: one button per category option, highlighted when
    it is the filter, and one card per filtered project. *)
Record CategoryButton := {
  category : string;
  selected : bool
}.

Definition categoryButtons (s : State) : list CategoryButton :=
  (λ c, {| category := c; selected := String.eqb (projectFilter s) c |})
    <$> projectCategories s.

Definition projectCards (s : State) : list Project := filteredProjects s.

(** [TestimonialsSection]: one card per testimonial, with its star row. *)
Record TestimonialCard := {
  card_name : string;
  card_role : string;
  card_company : string;
  card_content : string;
  card_stars : list Star
}.

Definition testimonialCard (t : Testimonial) : Result TestimonialCard :=
  match starRow t with
  | Throw e => Throw e
  | Return row =>
      Return {| card_name := testimonial_name t; card_role := role t;
                card_company := company t;
                card_content := testimonial_content t;
                card_stars := row |}
  end.

Definition TestimonialsSection (s : State) : Result (list TestimonialCard) :=
  mapThrowing testimonialCard (testimonials s).

(** What the rendered page lets the user do in state [s]: each event has
    its [onClick], [onChange] or [onSubmit] in a component that [main]
    renders, on an item that component maps over.  The contact inputs are
    [required] and the submit button is disabled while [isSubmitting]. *)
Definition enabled (s : State) (e : Event) : Prop :=
  match e with
  | Mount _ => True
  | ClickNav section => section ∈ sections
  | ClickMobileNav section => isMenuOpen s = true ∧ section ∈ sections
  | ClickGetInTouch | ClickViewPortfolio => HeroSection ∈ main s
  | ClickMenuButton => True
  | ClickCategory c => PortfolioSection ∈ main s ∧ c ∈ projectCategories s
  | ClickProject p => PortfolioSection ∈ main s ∧ p ∈ projectCards s
  | CloseProjectModal => is_Some (projectOverlay s)
  | ClickPost q => BlogSection ∈ main s ∧ q ∈ blogPosts s
  | CloseBlogModal => is_Some (blogOverlay s)
  | EditName _ | EditEmail _ | EditMessage _ => ContactSection ∈ main s
  | SubmitContactForm _ =>
      ContactSection ∈ main s ∧ isSubmitting s = false ∧
      name (contactForm s) ≠ "" ∧ email (contactForm s) ≠ "" ∧
      message (contactForm s) ≠ ""
  | ClickAdminButton => True
  end.

(** A history in which every event was enabled when it happened. *)
Fixpoint usable (w : World State) (es : list Event) : Prop :=
  match es with
  | [] => True
  | e :: es' => enabled (state w) e ∧ usable (exec (handle e) w) es'
  end.

(** The mount effect runs once: a history settles at most one load. *)
Fixpoint loads (es : list Event) : nat :=
  match es with
  | [] => 0%nat
  | Mount _ :: es' => S (loads es')
  | _ :: es' => loads es'
  end.

End AppView.

Module AdminView.
Import AdminPanel.


Definition formData_initial (s : State) : Settings := settings s.

Definition inputValue (field : string) (formData : Settings) : string :=
  match formData !! field with
  | None => ""
  | Some (SText v) => v
  | Some (SLinks _) => "[object Object]"
  end.

Definition handleChange (field value : string) (formData : Settings) : Settings :=
  <[field := SText value]> formData.

Definition handleSubmit (formData : Settings) (o : Outcome Settings)
    : Handler State unit :=
  updateSettings formData o.

(** [renderTabContent] and the content area around it, which shows the
    spinner instead while [loading]. *)
Inductive TabView :=
  | SettingsFormView (formData : Settings)
  | ProjectsList (rows : list Project)
  | BlogPostsList (rows : list BlogPost)
  | TestimonialsList (rows : list Testimonial).

Definition renderTabContent (s : State) : TabView :=
  if String.eqb (activeTab s) "settings" then SettingsFormView (formData_initial s)
  else if String.eqb (activeTab s) "projects" then ProjectsList (projects s)
  else if String.eqb (activeTab s) "blog" then BlogPostsList (blogPosts s)
  else if String.eqb (activeTab s) "testimonials" then TestimonialsList (testimonials s)
  else SettingsFormView (formData_initial s).

Definition contentArea (s : State) : option TabView :=
  if loading s then None else Some (renderTabContent s).

(** The [deleteItem(type, id)] calls the rendered Delete buttons make. *)
Definition deleteButtons (s : State) : list (string * string) :=
  match contentArea s with
  | Some (ProjectsList rows) => (λ p, ("projects", project_id p)) <$> rows
  | Some (BlogPostsList rows) => (λ p, ("blog", post_id p)) <$> rows
  | Some (TestimonialsList rows) => (λ t, ("testimonials", testimonial_id t)) <$> rows
  | _ => []
  end.

End AdminView.

Local Open Scope list_scope.

(** ** What a request gave, as the handlers see it *)

(** The data a read delivers: the parsed body of a resolved fetch.  A
    rejected fetch and a body that is not JSON deliver nothing; the status
    of the response plays no part. *)
Definition delivered {T} (o : Outcome T) : option T :=
  match o with
  | Rejected _ => None
  | Resolved r => json_body r
  end.

(** A write is accepted when its fetch resolves with a 2xx status. *)
Definition accepted {T} (o : Outcome T) : bool :=
  match o with
  | Rejected _ => false
  | Resolved r => ok r
  end.

(** The filter projector as the specification words it: the collection
    for the filter "All", else the projects of the collection whose category
    is the filter.  [App.filteredProjects] is compared with it below. *)
Definition project_view (collection : list Project) (f : string) : list Project :=
  if decide (f = "All") then collection
  else filter (λ p, project_category p = f) collection.

(** The five requests of the public client's load, in the order they are
    sent. *)
Definition loadRequests : list Request :=
  [get_request "/api/projects"; get_request "/api/blog";
   get_request "/api/testimonials"; get_request "/api/settings";
   get_request "/api/projects/categories"].

(** The state after a load that delivered all five datasets. *)
Definition loadedState (ps : list Project) (bs : list BlogPost)
    (ts : list Testimonial) (st : Settings) (cs : list string)
    (s : App.State) : App.State :=
  App.setProjectCategories ("All" :: cs)
    (App.setSettings st
       (App.setTestimonials ts (App.setBlogPosts bs (App.setProjects ps s)))).

(** The category options the portfolio section offers, as a set, and the
    set of categories of a project collection. *)
Definition categoryOptions (s : App.State) : gset string :=
  list_to_set (App.projectCategories s).

Definition projectCategorySet (ps : list Project) : gset string :=
  list_to_set (project_category <$> ps).

(** The categories endpoint answers with the categories of the projects
    that the projects endpoint answers with. *)
Definition categoriesMatch (o : App.Reads) : Prop :=
  ∀ ps cs,
    delivered (App.projectsRead o) = Some ps →
    delivered (App.categoriesRead o) = Some cs →
    (list_to_set cs : gset string) = projectCategorySet ps.

Definition served (e : App.Event) : Prop :=
  match e with
  | App.Mount o => categoriesMatch o
  | _ => True
  end.

(** The options are either still the initial empty list, with no project
    loaded, or "All" together with the categories of the projects held. *)
Definition optionsInvariant (s : App.State) : Prop :=
  (App.projects s = [] ∧ App.projectCategories s = []) ∨
  categoryOptions s = {["All"]} ∪ projectCategorySet (App.projects s).

(** The error a refused write throws: the rejection itself, or the error
    the handler raises for a status outside 2xx. *)
Definition refusal {T} (raised : string) (o : Outcome T) : string :=
  match o with
  | Rejected e => e
  | Resolved _ => raised
  end.

(** What the admin console does between renders. *)
Inductive AdminEvent :=
  | AdminMount
  | ReadsSettle (o : AdminPanel.Reads)
  | SubmitSettings (updatedSettings : Settings) (o : Outcome Settings)
  | ClickDelete (confirmed : bool) (type id : string) (o : Outcome ())
  | MessageTimeout
  | ClickTab (tab : string).

Definition adminHandle (e : AdminEvent) : Handler AdminPanel.State () :=
  match e with
  | AdminMount => AdminPanel.fetchData_start
  | ReadsSettle o => AdminPanel.fetchData_settle o
  | SubmitSettings updatedSettings o => AdminPanel.updateSettings updatedSettings o
  | ClickDelete confirmed type id o => AdminPanel.deleteItem confirmed type id o
  | MessageTimeout => AdminPanel.messageTimeout
  | ClickTab tab => setState (AdminPanel.setActiveTab tab)
  end.

Fixpoint adminRun (es : list AdminEvent) (w : World AdminPanel.State)
    : World AdminPanel.State :=
  match es with
  | [] => w
  | e :: es' => adminRun es' (exec (adminHandle e) w)
  end.

(** The data a settled load delivers, when all four reads deliver. *)
Definition adminDelivered (o : AdminPanel.Reads)
    : option (Settings * list Project * list BlogPost * list Testimonial) :=
  st ← delivered (AdminPanel.settingsRead o);
  ps ← delivered (AdminPanel.projectsRead o);
  bs ← delivered (AdminPanel.blogRead o);
  ts ← delivered (AdminPanel.testimonialsRead o);
  Some (st, ps, bs, ts).

(** The settings last fetched or updated with success in a history that
    began with [current]. *)
Fixpoint lastSettings (current : Settings) (es : list AdminEvent) : Settings :=
  match es with
  | [] => current
  | ReadsSettle o :: es' =>
      match adminDelivered o with
      | Some (st, _, _, _) => lastSettings st es'
      | None => lastSettings current es'
      end
  | SubmitSettings updatedSettings o :: es' =>
      lastSettings (if accepted o then updatedSettings else current) es'
  | _ :: es' => lastSettings current es'
  end.

(** The request a contact submission sends: the form as it stands. *)
Definition contactRequest (s : App.State) : Request :=
  {| method := POST; url := BACKEND_URL ++ "/api/contact";
     body := ContactBody (App.contactForm s) |}.

(** The requests of the admin console. *)
Definition refreshRequests : list Request :=
  [get_request "/api/settings"; get_request "/api/projects";
   get_request "/api/blog"; get_request "/api/testimonials"].

Definition settingsRequest (updatedSettings : Settings) : Request :=
  {| method := PUT; url := BACKEND_URL ++ "/api/settings";
     body := SettingsBody updatedSettings |}.

Definition deleteRequest (type id : string) : Request :=
  {| method := DELETE; url := BACKEND_URL ++ "/api/" ++ type ++ "/" ++ id;
     body := NoBody |}.

(** The admin state after a load that delivered all four datasets. *)
Definition refreshedState (st : Settings) (ps : list Project)
    (bs : list BlogPost) (ts : list Testimonial)
    (s : AdminPanel.State) : AdminPanel.State :=
  AdminPanel.setLoading false
    (AdminPanel.setTestimonials ts
       (AdminPanel.setBlogPosts bs
          (AdminPanel.setProjects ps (AdminPanel.setSettings st s)))).

(** The admin state after a handler caught a failure: the collections and
    settings are as before, the message names the failure and [loading] is
    down. *)
Definition failedState (text : string) (s : AdminPanel.State) : AdminPanel.State :=
  AdminPanel.setLoading false (AdminPanel.setMessage text s).

(** Sample data: a project, a load in which the categories endpoint
    answers without that project's category, and one in which it answers
    with it. *)
Definition exteriorVilla : Project := {|
  project_id := "p1";
  project_title := "Villa";
  project_description := "Exterior render";
  project_category := "Exterior";
  project_image_url := "villa.jpg";
  software_used := ["Blender"];
  gallery_images := None
|}.

Definition interiorLoft : Project := {|
  project_id := "p2";
  project_title := "Loft";
  project_description := "Interior render";
  project_category := "Interior";
  project_image_url := "loft.jpg";
  software_used := ["3ds Max"; "V-Ray"];
  gallery_images := Some ["loft-1.jpg"]
|}.

Definition filledForm : ContactForm :=
  {| name := "A"; email := "a@b.com"; message := "hi" |}.

Definition staleCategories : App.Reads := {|
  App.projectsRead := Resolved {| status := 200; json_body := Some [exteriorVilla] |};
  App.blogRead := Resolved {| status := 200; json_body := Some [] |};
  App.testimonialsRead := Resolved {| status := 200; json_body := Some [] |};
  App.settingsRead := Resolved {| status := 200; json_body := Some ∅ |};
  App.categoriesRead := Resolved {| status := 200; json_body := Some ["Interior"] |}
|}.

Definition freshCategories : App.Reads := {|
  App.projectsRead := Resolved {| status := 200; json_body := Some [exteriorVilla] |};
  App.blogRead := Resolved {| status := 200; json_body := Some [] |};
  App.testimonialsRead := Resolved {| status := 200; json_body := Some [] |};
  App.settingsRead := Resolved {| status := 200; json_body := Some ∅ |};
  App.categoriesRead := Resolved {| status := 200; json_body := Some ["Exterior"] |}
|}.



(** The requests a handler of the public client sends. *)
Definition sent (e : App.Event) (s : App.State) : list Request :=
  match e with
  | App.Mount _ => loadRequests
  | App.SubmitContactForm _ => [contactRequest s]
  | _ => []
  end.

(** A request the public client is meant to send: one of the reads of the
    load, or the contact post. *)
Definition publicRequest (r : Request) : Prop :=
  r ∈ loadRequests ∨
  ∃ c, r = {| method := POST; url := BACKEND_URL ++ "/api/contact";
              body := ContactBody c |}.

(** Nothing has been loaded or picked yet. *)
Definition untouched (s : App.State) : Prop :=
  App.projects s = [] ∧ App.blogPosts s = [] ∧ App.projectCategories s = [] ∧
  App.selectedProject s = None ∧ App.selectedBlogPost s = None ∧
  App.projectFilter s = "All".

(** What is picked is on offer: the selected project and post are in
    their collections, and the filter is "All" or one of the options. *)
Definition selectionsValid (s : App.State) : Prop :=
  (∀ p, App.selectedProject s = Some p → p ∈ App.projects s) ∧
  (∀ q, App.selectedBlogPost s = Some q → q ∈ App.blogPosts s) ∧
  (App.projectFilter s = "All" ∨ App.projectFilter s ∈ App.projectCategories s).

(** The collections last loaded in a history of the admin console that
    began with [current]. *)
Fixpoint lastCollections
    (current : list Project * list BlogPost * list Testimonial)
    (es : list AdminEvent) : list Project * list BlogPost * list Testimonial :=
  match es with
  | [] => current
  | ReadsSettle o :: es' =>
      match adminDelivered o with
      | Some (_, ps, bs, ts) => lastCollections (ps, bs, ts) es'
      | None => lastCollections current es'
      end
  | _ :: es' => lastCollections current es'
  end.

Definition collections (s : AdminPanel.State)
    : list Project * list BlogPost * list Testimonial :=
  (AdminPanel.projects s, AdminPanel.blogPosts s, AdminPanel.testimonials s).


(** The form data a settings form starts with when the content area
    mounts one: none while the spinner or a list is shown. *)
Definition mountedForm (s : AdminPanel.State) : option Settings :=
  match AdminView.contentArea s with
  | Some (AdminView.SettingsFormView formData) => Some formData
  | _ => None
  end.

(** Typing into a mounted settings form, one input change after another,
    each edit a field and the text typed into its input.  A change
    re-renders the form alone and its data carries over.  This is one
    sitting at the form: [SettingsForm] is declared inside [AdminPanel],
    so whatever re-renders the console in between mounts a new form, which
    starts from the settings slot again. *)
Definition applyEdits (edits : list (string * string)) (formData : Settings)
    : Settings :=
  foldl (λ fd e, AdminView.handleChange e.1 e.2 fd) formData edits.

(** ** Shared lemmas *)

Lemma ok_status {T} (r : Response T) :
  ok r = true ↔ 200 ≤ status r ≤ 299.
Proof. unfold ok. rewrite andb_true_iff, !Z.leb_le. tauto. Qed.

(** ** Properties of the public client *)

(** Unfolds the monad and its primitives, leaving the pair a handler
    computes. *)
Ltac handler_simpl :=
  unfold exec, outcome, try_catch, try_catch_finally, fetch, send, await, json,
    console_error, alert, setTimeout, effect, setState, read, throw,
    mbind, handler_bind, mret, handler_ret in *;
  cbn in *.

Module AppFacts.
Import App.

Lemma fetchData_delivered o w ps bs ts st cs :
  delivered (projectsRead o) = Some ps →
  delivered (blogRead o) = Some bs →
  delivered (testimonialsRead o) = Some ts →
  delivered (settingsRead o) = Some st →
  delivered (categoriesRead o) = Some cs →
  fetchData o w =
    (Return (),
     {| state := loadedState ps bs ts st cs (state w);
        effects := {| requests := requests (effects w) ++ loadRequests;
                      console := console (effects w);
                      alerts := alerts (effects w);
                      timeouts := timeouts (effects w) |} |}).
Proof.
  destruct o as [[?|[? ?]] [?|[? ?]] [?|[? ?]] [?|[? ?]] [?|[? ?]]];
    simpl; try discriminate.
  intros -> -> -> -> ->.
  unfold fetchData, loadRequests. handler_simpl.
  by rewrite <- !app_assoc.
Qed.

Ltac fetchData_settled :=
  eexists; unfold fetchData, loadRequests; handler_simpl;
  rewrite <- !app_assoc; reflexivity.

Lemma fetchData_undelivered o w :
  delivered (projectsRead o) = None ∨ delivered (blogRead o) = None ∨
  delivered (testimonialsRead o) = None ∨ delivered (settingsRead o) = None ∨
  delivered (categoriesRead o) = None →
  ∃ error,
    fetchData o w =
      (Return (),
       {| state := state w;
          effects := {| requests := requests (effects w) ++ loadRequests;
                        console := console (effects w) ++ [("Error fetching data:", error)];
                        alerts := alerts (effects w);
                        timeouts := timeouts (effects w) |} |}).
Proof.
  intros H.
  destruct o as [o1 o2 o3 o4 o5]; simpl in H.
  destruct o1 as [e1|[? b1]]; [by fetchData_settled|].
  destruct o2 as [e2|[? b2]]; [by fetchData_settled|].
  destruct o3 as [e3|[? b3]]; [by fetchData_settled|].
  destruct o4 as [e4|[? b4]]; [by fetchData_settled|].
  destruct o5 as [e5|[? b5]]; [by fetchData_settled|].
  simpl in H.
  destruct b1; [|by fetchData_settled].
  destruct b2; [|by fetchData_settled].
  destruct b3; [|by fetchData_settled].
  destruct b4; [|by fetchData_settled].
  destruct b5; [|by fetchData_settled].
  exfalso. intuition discriminate.
Qed.

(** Either every read delivers, or one of them does not. *)
Lemma fetchData_cases (o : Reads) :
  (∃ ps bs ts st cs,
     delivered (projectsRead o) = Some ps ∧
     delivered (blogRead o) = Some bs ∧
     delivered (testimonialsRead o) = Some ts ∧
     delivered (settingsRead o) = Some st ∧
     delivered (categoriesRead o) = Some cs) ∨
  (delivered (projectsRead o) = None ∨ delivered (blogRead o) = None ∨
   delivered (testimonialsRead o) = None ∨ delivered (settingsRead o) = None ∨
   delivered (categoriesRead o) = None).
Proof.
  destruct (delivered (projectsRead o)); [|tauto].
  destruct (delivered (blogRead o)); [|tauto].
  destruct (delivered (testimonialsRead o)); [|tauto].
  destruct (delivered (settingsRead o)); [|tauto].
  destruct (delivered (categoriesRead o)); [|tauto].
  left. eauto 10.
Qed.

(** *** The filter projector *)

(** C1: the projected view is the whole collection for the filter "All",
    and otherwise exactly the projects of that category, in their order;
    it is always drawn from the collection, and it is determined by the
    collection and the filter alone. *)
Theorem filteredProjects_view (s : State) :
  filteredProjects s = project_view (projects s) (projectFilter s) ∧
  (projectFilter s = "All" → filteredProjects s = projects s) ∧
  (projectFilter s ≠ "All" →
     filteredProjects s =
       filter (λ p, project_category p = projectFilter s) (projects s)) ∧
  (∀ p, p ∈ filteredProjects s ↔
          p ∈ projects s ∧
          (projectFilter s = "All" ∨ project_category p = projectFilter s)) ∧
  filteredProjects s `sublist_of` projects s ∧
  (∀ s', projects s' = projects s → projectFilter s' = projectFilter s →
         filteredProjects s' = filteredProjects s).
Proof.
  unfold filteredProjects, project_view.
  destruct (String.eqb_spec (projectFilter s) "All") as [Heq|Hne];
    (split; [by case_decide|]);
    (split; [|split; [|split; [|split]]]); try done.
  - intros p. tauto.
  - intros s' -> ->. by rewrite Heq.
  - intros p. rewrite list_elem_of_filter. tauto.
  - apply sublist_filter.
  - intros s' -> ->.
    by destruct (String.eqb_spec (projectFilter s) "All").
Qed.

Example filteredProjects_sample :
  let s := setProjects [exteriorVilla; interiorLoft; exteriorVilla] initial in
  filteredProjects s = [exteriorVilla; interiorLoft; exteriorVilla] ∧
  filteredProjects (setProjectFilter "Exterior" s) = [exteriorVilla; exteriorVilla] ∧
  filteredProjects (setProjectFilter "Interior" s) = [interiorLoft] ∧
  filteredProjects (setProjectFilter "Landscape" s) = [].
Proof. by repeat split. Qed.

(** *** The category options *)

(** C3, as stated, fails: before the load settles the option list is empty,
    so it lacks "All"; and after a load the options are what the categories
    endpoint answered, not what the projects held call for. *)
Lemma categoryOptions_not_derived :
  (categoryOptions (state mounted) = ∅ ∧
   "All" ∈ ({["All"]} ∪ projectCategorySet (projects (state mounted)) : gset string) ∧
   categoryOptions (state mounted) ≠
     {["All"]} ∪ projectCategorySet (projects (state mounted))) ∧
  (let s := state (run [Mount staleCategories] mounted) in
   projects s = [exteriorVilla] ∧
   projectCategories s = ["All"; "Interior"] ∧
   ("Exterior" ∉ categoryOptions s) ∧
   "Exterior" ∈ ({["All"]} ∪ projectCategorySet (projects s) : gset string) ∧
   categoryOptions s ≠ {["All"]} ∪ projectCategorySet (projects s)).
Proof.
  split.
  - assert (categoryOptions (state mounted) = ∅) as Hempty by reflexivity.
    split; [done|]. split; [set_solver|].
    rewrite Hempty. set_solver.
  - assert (state (run [Mount staleCategories] mounted) =
            loadedState [exteriorVilla] [] [] ∅ ["Interior"] initial) as ->.
    { reflexivity. }
    unfold categoryOptions, projectCategorySet.
    change (projects (loadedState [exteriorVilla] [] [] ∅ ["Interior"] initial))
      with [exteriorVilla].
    change (projectCategories
              (loadedState [exteriorVilla] [] [] ∅ ["Interior"] initial))
      with ["All"; "Interior"].
    change (project_category <$> [exteriorVilla]) with ["Exterior"].
    assert ("Exterior" ∉ (list_to_set ["All"; "Interior"] : gset string))
      as Hout by (rewrite not_elem_of_list_to_set, !elem_of_cons,
                    elem_of_nil; intros [?|[?|?]]; done).
    assert ("Exterior" ∈ ({["All"]} ∪ list_to_set ["Exterior"] : gset string))
      as Hin by set_solver.
    split; [done|]. split; [done|]. split; [done|]. split; [done|].
    intros Heq. apply Hout. by rewrite Heq.
Qed.

(** Slots a handler other than the load leaves alone. *)
Lemma handle_keeps_projects (e : Event) (w : World State) :
  (∀ o, e ≠ Mount o) →
  projects (state (exec (handle e) w)) = projects (state w) ∧
  projectCategories (state (exec (handle e) w)) = projectCategories (state w).
Proof.
  intros Hne. destruct e as [o| | | | | | | | | | | | | |o|]; try done;
    try (by destruct (Hne o)).
  unfold handle, handleContactSubmit.
  destruct o as [error|response]; handler_simpl; [done|].
  by destruct (ok response).
Qed.

Lemma fetchData_keeps_invariant (o : Reads) (w : World State) :
  categoriesMatch o →
  optionsInvariant (state w) →
  optionsInvariant (state (exec (fetchData o) w)).
Proof.
  intros Hserved Hinv.
  destruct (fetchData_cases o) as
    [(ps & bs & ts & st & cs & H1 & H2 & H3 & H4 & H5)|Hnone].
  - unfold exec.
    rewrite (fetchData_delivered o w ps bs ts st cs) by done.
    right. unfold categoryOptions. simpl.
    rewrite (Hserved ps cs H1 H5). set_solver.
  - destruct (fetchData_undelivered o w Hnone) as [error Herr].
    unfold exec. by rewrite Herr.
Qed.

Lemma handle_keeps_invariant (e : Event) (w : World State) :
  served e →
  optionsInvariant (state w) →
  optionsInvariant (state (exec (handle e) w)).
Proof.
  intros Hserved Hinv.
  assert ((∃ o, e = Mount o) ∨ ∀ o, e ≠ Mount o) as [[o ->]|Hother]
    by (destruct e; eauto).
  - by apply fetchData_keeps_invariant.
  - destruct (handle_keeps_projects e w Hother) as [Hp Hc].
    unfold optionsInvariant, categoryOptions in *. by rewrite Hp, Hc.
Qed.

Lemma run_keeps_invariant (es : list Event) (w : World State) :
  Forall served es →
  optionsInvariant (state w) →
  optionsInvariant (state (run es w)).
Proof.
  intros Hserved. revert w.
  induction Hserved as [|e es He _ IH]; intros w Hinv; simpl; [done|].
  by apply IH, handle_keeps_invariant.
Qed.

(** C3, amended: the option list is empty until a load delivers; from then
    on it is "All" followed by what the categories endpoint answered.  As
    long as that endpoint answers with the categories of the projects sent
    alongside, every state the client reaches either still has no projects
    and no options, or offers exactly "All" and the categories of its
    projects.  No handler but the load changes the projects or the
    options. *)
Theorem categoryOptions_invariant (es : list Event) :
  Forall served es →
  optionsInvariant (state (run es mounted)) ∧
  projectCategories initial = [] ∧
  (∀ o w ps bs ts st cs,
     delivered (projectsRead o) = Some ps →
     delivered (blogRead o) = Some bs →
     delivered (testimonialsRead o) = Some ts →
     delivered (settingsRead o) = Some st →
     delivered (categoriesRead o) = Some cs →
     projects (state (exec (handle (Mount o)) w)) = ps ∧
     projectCategories (state (exec (handle (Mount o)) w)) = "All" :: cs) ∧
  (∀ e w, (∀ o, e ≠ Mount o) →
     projects (state (exec (handle e) w)) = projects (state w) ∧
     projectCategories (state (exec (handle e) w)) = projectCategories (state w)).
Proof.
  intros Hserved. split; [|split; [done|split]].
  - apply run_keeps_invariant; [done|]. by left.
  - intros o w ps bs ts st cs H1 H2 H3 H4 H5. unfold exec, handle.
    by rewrite (fetchData_delivered o w ps bs ts st cs).
  - apply handle_keeps_projects.
Qed.

Lemma categoryOptions_invariant_witness :
  Forall served [Mount freshCategories; ClickCategory "Exterior";
                 ClickProject exteriorVilla] ∧
  optionsInvariant
    (state (run [Mount freshCategories; ClickCategory "Exterior";
                 ClickProject exteriorVilla] mounted)).
Proof.
  assert (Forall served [Mount freshCategories; ClickCategory "Exterior";
                         ClickProject exteriorVilla]) as Hserved.
  { repeat constructor. intros ps cs Hps Hcs. simpl in Hps, Hcs.
    injection Hps as <-. injection Hcs as <-. reflexivity. }
  split; [exact Hserved|].
  exact (proj1 (categoryOptions_invariant _ Hserved)).
Defined.

(** *** The modals *)

(** C4: the two selection slots are independent.  Opening or closing the
    project modal leaves the selected post as it was, and the other way
    round; each slot holds at most one item, a later selection replacing
    the earlier; both can hold an item at once; and an overlay is rendered
    exactly when its slot holds an item. *)
Theorem selection_slots_independent (w : World State) (p p' : Project)
    (q q' : BlogPost) :
  (let w1 := exec (handle (ClickProject p)) w in
   selectedProject (state w1) = Some p ∧
   selectedBlogPost (state w1) = selectedBlogPost (state w)) ∧
  (let w1 := exec (handle (ClickPost q)) w in
   selectedBlogPost (state w1) = Some q ∧
   selectedProject (state w1) = selectedProject (state w)) ∧
  (let w1 := exec (handle CloseProjectModal) w in
   selectedProject (state w1) = None ∧
   selectedBlogPost (state w1) = selectedBlogPost (state w)) ∧
  (let w1 := exec (handle CloseBlogModal) w in
   selectedBlogPost (state w1) = None ∧
   selectedProject (state w1) = selectedProject (state w)) ∧
  selectedProject (state (run [ClickProject p; ClickProject p'] w)) = Some p' ∧
  selectedBlogPost (state (run [ClickPost q; ClickPost q'] w)) = Some q' ∧
  (let w2 := run [ClickProject p; ClickPost q] w in
   selectedProject (state w2) = Some p ∧ selectedBlogPost (state w2) = Some q) ∧
  (is_Some (projectOverlay (state w)) ↔ selectedProject (state w) ≠ None) ∧
  (is_Some (blogOverlay (state w)) ↔ selectedBlogPost (state w) ≠ None).
Proof.
  cbv zeta.
  repeat match goal with |- _ ∧ _ => split end; try reflexivity.
  - unfold projectOverlay, ProjectModal.
    destruct (selectedProject (state w));
      [split; [done | by eauto] | split; [by intros [? ?] | done]].
  - unfold blogOverlay, BlogModal.
    destruct (selectedBlogPost (state w));
      [split; [done | by eauto] | split; [by intros [? ?] | done]].
Qed.

(** *** The view router *)


Example main_sample :
  main initial = [HeroSection; AboutSection; SkillsSection; PortfolioSection;
                  TestimonialsSection; BlogSection; ContactSection] ∧
  main (state (run [ClickNav "blog"] mounted)) = [BlogSection] ∧
  main (state (run [ClickNav "blog"; ClickGetInTouch] mounted)) = [ContactSection].
Proof. by repeat split. Qed.

(** *** The contact form *)

Lemma handleContactSubmit_accepted o w :
  accepted o = true →
  handleContactSubmit o w =
    (Return (),
     {| state := setIsSubmitting false (setContactForm emptyContactForm (state w));
        effects := {| requests := requests (effects w) ++ [contactRequest (state w)];
                      console := console (effects w);
                      alerts := alerts (effects w) ++ ["Message sent successfully!"];
                      timeouts := timeouts (effects w) |} |}).
Proof.
  unfold handleContactSubmit, contactRequest.
  destruct o as [error|response]; simpl; [done|].
  intros Hok. handler_simpl. by rewrite Hok.
Qed.

Lemma handleContactSubmit_refused o w :
  accepted o = false →
  handleContactSubmit o w =
    (Return (),
     {| state := setIsSubmitting false (state w);
        effects := {| requests := requests (effects w) ++ [contactRequest (state w)];
                      console := console (effects w) ++
                                   [("Error sending message:",
                                     refusal "Failed to send message" o)];
                      alerts := alerts (effects w) ++
                                  ["Failed to send message. Please try again."];
                      timeouts := timeouts (effects w) |} |}).
Proof.
  unfold handleContactSubmit, contactRequest.
  destruct o as [error|response]; simpl.
  - intros _. by handler_simpl.
  - intros Hok. handler_simpl. by rewrite Hok.
Qed.

(** C8: a submission posts the form and always ends with [isSubmitting]
    false.  When the post is accepted (a 2xx response) the three fields
    are reset to empty strings and the confirmation is shown; when it is
    not (the fetch rejects, or the status is not 2xx) the form is as it was,
    the failure alert is shown and the error is logged.  No other slot
    changes either way. *)
Theorem handleContactSubmit_result (o : Outcome ()) (w : World State) :
  let w' := exec (handleContactSubmit o) w in
  outcome (handleContactSubmit o) w = Return () ∧
  isSubmitting (state w') = false ∧
  requests (effects w') = requests (effects w) ++ [contactRequest (state w)] ∧
  (accepted o = true →
     name (contactForm (state w')) = "" ∧
     email (contactForm (state w')) = "" ∧
     message (contactForm (state w')) = "" ∧
     state w' = setIsSubmitting false (setContactForm emptyContactForm (state w)) ∧
     alerts (effects w') = alerts (effects w) ++ ["Message sent successfully!"] ∧
     console (effects w') = console (effects w)) ∧
  (accepted o = false →
     contactForm (state w') = contactForm (state w) ∧
     state w' = setIsSubmitting false (state w) ∧
     alerts (effects w') =
       alerts (effects w) ++ ["Failed to send message. Please try again."] ∧
     ∃ error,
       console (effects w') =
         console (effects w) ++ [("Error sending message:", error)]).
Proof.
  intros w'. subst w'. unfold exec, outcome.
  destruct (accepted o) eqn:Hacc.
  - rewrite (handleContactSubmit_accepted o w Hacc). simpl.
    repeat split; done.
  - rewrite (handleContactSubmit_refused o w Hacc). simpl.
    repeat split; try done. eauto.
Qed.

Example handleContactSubmit_sample :
  let w := run [EditName "A"; EditEmail "a@b.com"; EditMessage "hi"] mounted in
  let sent := exec (handleContactSubmit (Resolved {| status := 201; json_body := None |})) w in
  let lost := exec (handleContactSubmit (Rejected "TypeError: Failed to fetch")) w in
  contactForm (state sent) = emptyContactForm ∧
  isSubmitting (state sent) = false ∧
  alerts (effects sent) = ["Message sent successfully!"] ∧
  contactForm (state lost) = filledForm ∧
  isSubmitting (state lost) = false ∧
  alerts (effects lost) = ["Failed to send message. Please try again."] ∧
  url <$> requests (effects lost) = ["http://localhost:8001/api/contact"].
Proof. by repeat split. Qed.

End AppFacts.

(** ** Properties of the admin console *)

Module AdminFacts.
Import AdminPanel.

Lemma adminDelivered_cases (o : Reads) :
  (∃ st ps bs ts,
     delivered (settingsRead o) = Some st ∧
     delivered (projectsRead o) = Some ps ∧
     delivered (blogRead o) = Some bs ∧
     delivered (testimonialsRead o) = Some ts ∧
     adminDelivered o = Some (st, ps, bs, ts)) ∨
  ((delivered (settingsRead o) = None ∨ delivered (projectsRead o) = None ∨
    delivered (blogRead o) = None ∨ delivered (testimonialsRead o) = None) ∧
   adminDelivered o = None).
Proof.
  unfold adminDelivered.
  destruct (delivered (settingsRead o)); [|right; split; [tauto|done]].
  destruct (delivered (projectsRead o)); [|right; split; [tauto|done]].
  destruct (delivered (blogRead o)); [|right; split; [tauto|done]].
  destruct (delivered (testimonialsRead o)); [|right; split; [tauto|done]].
  left. eauto 10.
Qed.

Lemma fetchData_settle_delivered o w st ps bs ts :
  adminDelivered o = Some (st, ps, bs, ts) →
  fetchData_settle o w =
    (Return (),
     {| state := refreshedState st ps bs ts (state w);
        effects := effects w |}).
Proof.
  unfold adminDelivered.
  destruct o as [[?|[? [?|]]] [?|[? [?|]]] [?|[? [?|]]] [?|[? [?|]]]];
    simpl; try discriminate.
  intros [= -> -> -> ->]. reflexivity.
Qed.

Ltac fetchData_settle_failed :=
  eexists; unfold fetchData_settle; handler_simpl; reflexivity.

Lemma fetchData_settle_undelivered o w :
  adminDelivered o = None →
  ∃ error,
    fetchData_settle o w =
      (Return (),
       {| state := failedState "Error loading data" (state w);
          effects := {| requests := requests (effects w);
                        console := console (effects w) ++ [("Error fetching data:", error)];
                        alerts := alerts (effects w);
                        timeouts := timeouts (effects w) |} |}).
Proof.
  unfold adminDelivered. intros H.
  destruct o as [o1 o2 o3 o4]; simpl in H.
  destruct o1 as [e1|[? b1]]; [by fetchData_settle_failed|].
  destruct o2 as [e2|[? b2]]; [by fetchData_settle_failed|].
  destruct o3 as [e3|[? b3]]; [by fetchData_settle_failed|].
  destruct o4 as [e4|[? b4]]; [by fetchData_settle_failed|].
  simpl in H.
  destruct b1; [|by fetchData_settle_failed].
  destruct b2; [|by fetchData_settle_failed].
  destruct b3; [|by fetchData_settle_failed].
  destruct b4; [|by fetchData_settle_failed].
  discriminate.
Qed.

Lemma fetchData_start_result w :
  fetchData_start w =
    (Return (),
     {| state := setLoading true (state w);
        effects := {| requests := requests (effects w) ++ refreshRequests;
                      console := console (effects w);
                      alerts := alerts (effects w);
                      timeouts := timeouts (effects w) |} |}).
Proof.
  unfold fetchData_start, refreshRequests. handler_simpl.
  by rewrite <- !app_assoc.
Qed.

Lemma updateSettings_accepted upd o w :
  accepted o = true →
  updateSettings upd o w =
    (Return (),
     {| state := setLoading false
                   (setSettings upd
                      (setMessage "Settings updated successfully!" (state w)));
        effects := {| requests := requests (effects w) ++ [settingsRequest upd];
                      console := console (effects w);
                      alerts := alerts (effects w);
                      timeouts := timeouts (effects w) ++ [3000] |} |}).
Proof.
  unfold updateSettings, settingsRequest.
  destruct o as [error|response]; simpl; [done|].
  intros Hok. handler_simpl. by rewrite Hok.
Qed.

Lemma updateSettings_refused upd o w :
  accepted o = false →
  updateSettings upd o w =
    (Return (),
     {| state := failedState "Error updating settings" (state w);
        effects := {| requests := requests (effects w) ++ [settingsRequest upd];
                      console := console (effects w) ++
                                   [("Error updating settings:",
                                     refusal "Failed to update settings" o)];
                      alerts := alerts (effects w);
                      timeouts := timeouts (effects w) |} |}).
Proof.
  unfold updateSettings, settingsRequest.
  destruct o as [error|response]; simpl.
  - intros _. by handler_simpl.
  - intros Hok. handler_simpl. by rewrite Hok.
Qed.

Lemma deleteItem_declined type id o w :
  deleteItem false type id o w = (Return (), w).
Proof. reflexivity. Qed.

Lemma deleteItem_accepted type id o w :
  accepted o = true →
  deleteItem true type id o w =
    (Return (),
     {| state := setLoading false
                   (setMessage (type ++ " deleted successfully!")%string (state w));
        effects := {| requests := requests (effects w) ++
                                    deleteRequest type id :: refreshRequests;
                      console := console (effects w);
                      alerts := alerts (effects w);
                      timeouts := timeouts (effects w) ++ [3000] |} |}).
Proof.
  unfold deleteItem, deleteRequest, fetchData_start, refreshRequests.
  destruct o as [error|response]; simpl; [done|].
  intros Hok. handler_simpl. rewrite Hok. cbn.
  by rewrite <- !app_assoc.
Qed.

Lemma deleteItem_refused type id o w :
  accepted o = false →
  deleteItem true type id o w =
    (Return (),
     {| state := failedState ("Error deleting " ++ type)%string (state w);
        effects := {| requests := requests (effects w) ++ [deleteRequest type id];
                      console := console (effects w) ++
                                   [(("Error deleting " ++ type ++ ":")%string,
                                     refusal ("Failed to delete " ++ type)%string o)];
                      alerts := alerts (effects w);
                      timeouts := timeouts (effects w) |} |}).
Proof.
  unfold deleteItem, deleteRequest.
  destruct o as [error|response]; simpl.
  - intros _. by handler_simpl.
  - intros Hok. handler_simpl. by rewrite Hok.
Qed.


Lemma refresh_delivered o w st ps bs ts :
  adminDelivered o = Some (st, ps, bs, ts) →
  fetchData o w =
    (Return (),
     {| state := refreshedState st ps bs ts (state w);
        effects := {| requests := requests (effects w) ++ refreshRequests;
                      console := console (effects w);
                      alerts := alerts (effects w);
                      timeouts := timeouts (effects w) |} |}).
Proof.
  intros Hd. unfold fetchData, mbind, handler_bind.
  rewrite fetchData_start_result.
  by rewrite (fetchData_settle_delivered o _ st ps bs ts Hd).
Qed.

(** The settings slot follows the history: it holds what the last load
    that delivered, or the last accepted update, put there. *)
Lemma adminHandle_settings (e : AdminEvent) (w : World State) :
  settings (state (exec (adminHandle e) w)) =
    lastSettings (settings (state w)) [e].
Proof.
  destruct e as [|o|upd o|confirmed type id o| |tab]; simpl; try done.
  - unfold exec.
    destruct (adminDelivered_cases o)
      as [(st & ps & bs & ts & _ & _ & _ & _ & Hd)|[_ Hd]]; rewrite Hd.
    + by rewrite (fetchData_settle_delivered o w st ps bs ts Hd).
    + by destruct (fetchData_settle_undelivered o w Hd) as [error ->].
  - unfold exec. destruct (accepted o) eqn:Hacc.
    + by rewrite updateSettings_accepted.
    + by rewrite updateSettings_refused.
  - unfold exec. destruct confirmed; [|done].
    destruct (accepted o) eqn:Hacc.
    + by rewrite deleteItem_accepted.
    + by rewrite deleteItem_refused.
Qed.

Lemma lastSettings_cons (current : Settings) (e : AdminEvent) (es : list AdminEvent) :
  lastSettings current (e :: es) = lastSettings (lastSettings current [e]) es.
Proof.
  destruct e as [|o|upd o|confirmed type id o| |tab]; simpl; try done.
  by destruct (adminDelivered o) as [[[[? ?] ?] ?]|].
Qed.

Lemma adminRun_settings (es : list AdminEvent) (w : World State) :
  settings (state (adminRun es w)) = lastSettings (settings (state w)) es.
Proof.
  revert w. induction es as [|e es IH]; intros w; [done|].
  rewrite lastSettings_cons, <- adminHandle_settings. apply IH.
Qed.

(** *** Replacing the settings *)

(** C6: when the settings PUT answers with a status outside 2xx, the
    handler ends normally, the settings slot is what it was (so, in any
    history of the console, still the settings last fetched or updated with
    success), no collection changes, and the banner shows the error
    message, which is not empty. *)
Theorem updateSettings_non2xx (upd : Settings) (response : Response Settings)
    (w : World State) :
  ¬ (200 ≤ status response ≤ 299) →
  let w' := exec (updateSettings upd (Resolved response)) w in
  outcome (updateSettings upd (Resolved response)) w = Return () ∧
  settings (state w') = settings (state w) ∧
  (∀ es, w = adminRun es mounted → settings (state w') = lastSettings ∅ es) ∧
  state w' = failedState "Error updating settings" (state w) ∧
  message (state w') = "Error updating settings" ∧
  message (state w') ≠ "" ∧
  banner (state w') = Some (message (state w')).
Proof.
  intros Hstatus w'. subst w'.
  assert (accepted (Resolved response) = false) as Hacc.
  { simpl. apply not_true_is_false. by rewrite ok_status. }
  unfold exec, outcome. rewrite (updateSettings_refused upd _ w Hacc). simpl.
  repeat split; try done.
  intros es ->. apply adminRun_settings.
Qed.

Lemma updateSettings_non2xx_witness :
  ¬ (200 ≤ 500 ≤ 299) ∧
  message
    (state (exec (updateSettings {["name" := SText "A"]}
                    (Resolved {| status := 500; json_body := None |}))
              mounted)) = "Error updating settings".
Proof.
  assert (¬ (200 ≤ 500 ≤ 299)) as Hstatus by lia.
  split; [exact Hstatus|].
  exact (proj1 (proj2 (proj2 (proj2 (proj2
    (updateSettings_non2xx {["name" := SText "A"]}
       {| status := 500; json_body := None |} mounted Hstatus)))))).
Defined.

(** C10: after an accepted settings PUT the settings slot holds the
    settings that were submitted.  The body of the response plays no part:
    whatever the server answers with under the same status, the handler
    leaves the same world. *)
Theorem updateSettings_mirrors_request (upd : Settings)
    (response : Response Settings) (w : World State) :
  200 ≤ status response ≤ 299 →
  let w' := exec (updateSettings upd (Resolved response)) w in
  settings (state w') = upd ∧
  message (state w') = "Settings updated successfully!" ∧
  requests (effects w') = requests (effects w) ++ [settingsRequest upd] ∧
  (∀ stored : option Settings,
     updateSettings upd
       (Resolved {| status := status response; json_body := stored |}) w =
     updateSettings upd (Resolved response) w).
Proof.
  intros Hstatus w'. subst w'.
  assert (∀ stored : option Settings,
            accepted (Resolved {| status := status response;
                                  json_body := stored |}) = true)
    as Hacc by (intros stored; simpl; by rewrite ok_status).
  assert (accepted (Resolved response) = true) as Hacc'
    by (simpl; by rewrite ok_status).
  unfold exec. rewrite (updateSettings_accepted upd _ w Hacc'). simpl.
  repeat split; try done.
  intros stored. by rewrite (updateSettings_accepted upd _ w (Hacc stored)).
Qed.

Lemma updateSettings_mirrors_request_witness :
  200 ≤ 200 ≤ 299 ∧
  settings
    (state (exec (updateSettings {["name" := SText "A"]}
                    (Resolved {| status := 200;
                                 json_body := Some {["name" := SText "B"]} |}))
              mounted)) = {["name" := SText "A"]}.
Proof.
  assert (200 ≤ 200 ≤ 299) as Hstatus by lia.
  split; [exact Hstatus|].
  exact (proj1
    (updateSettings_mirrors_request {["name" := SText "A"]}
       {| status := 200; json_body := Some {["name" := SText "B"]} |}
       mounted Hstatus)).
Defined.

(** *** Deleting an item *)

(** C7, as stated, fails: a confirmed delete whose request is answered
    with a 500 sends the DELETE and nothing after it, and the message is
    the error, not the success. *)
Lemma deleteItem_failed_no_refetch :
  let w' := exec (deleteItem true "projects" "p1"
                    (Resolved {| status := 500; json_body := None |})) mounted in
  requests (effects w') = [deleteRequest "projects" "p1"] ∧
  url (deleteRequest "projects" "p1") = "http://localhost:8001/api/projects/p1" ∧
  message (state w') = "Error deleting projects".
Proof. by repeat split. Qed.

(** C7, amended: declining the prompt leaves the world as it is: no
    request, no state change.  A confirmed delete sends the DELETE for that
    kind and id.  When it is accepted, the success message is set and the
    four reads of settings, projects, blog posts and testimonials are sent,
    whatever the kind, and once they deliver the four slots are replaced;
    when it is refused, nothing more is sent, the collections are as they
    were and the message names the failure. *)
Theorem deleteItem_then_refetch (type id : string) (o : Outcome ())
    (w : World State) :
  exec (deleteItem false type id o) w = w ∧
  (accepted o = true →
     let w' := exec (deleteItem true type id o) w in
     requests (effects w') =
       requests (effects w) ++ deleteRequest type id :: refreshRequests ∧
     state w' =
       setLoading false
         (setMessage (type ++ " deleted successfully!")%string (state w)) ∧
     ∀ reads st ps bs ts,
       adminDelivered reads = Some (st, ps, bs, ts) →
       state (exec (fetchData_settle reads) w') =
         refreshedState st ps bs ts (state w') ∧
       requests (effects (exec (fetchData_settle reads) w')) =
         requests (effects w')) ∧
  (accepted o = false →
     let w' := exec (deleteItem true type id o) w in
     requests (effects w') = requests (effects w) ++ [deleteRequest type id] ∧
     state w' = failedState ("Error deleting " ++ type)%string (state w)).
Proof.
  split; [done|]. split.
  - intros Hacc w'. subst w'. unfold exec.
    rewrite (deleteItem_accepted type id o w Hacc). simpl.
    split; [done|]. split; [done|].
    intros reads st ps bs ts Hd.
    by rewrite (fetchData_settle_delivered reads _ st ps bs ts Hd).
  - intros Hacc w'. subst w'. unfold exec.
    by rewrite (deleteItem_refused type id o w Hacc).
Qed.

Example deleteItem_sample :
  let removed := exec (deleteItem true "blog" "b7"
                         (Resolved {| status := 204; json_body := None |})) mounted in
  (method <$> requests (effects removed) = [DELETE; GET; GET; GET; GET]) ∧
  (url <$> requests (effects removed) =
     ["http://localhost:8001/api/blog/b7";
      "http://localhost:8001/api/settings";
      "http://localhost:8001/api/projects";
      "http://localhost:8001/api/blog";
      "http://localhost:8001/api/testimonials"]) ∧
  message (state removed) = "blog deleted successfully!" ∧
  loading (state removed) = false ∧
  exec (deleteItem false "blog" "b7"
          (Resolved {| status := 204; json_body := None |})) mounted = mounted.
Proof. by repeat split. Qed.

End AdminFacts.

(** ** The load over bodies as they come: what it does *)

Module AppRawFacts.
Import AppRaw.

Ltac fetchData_settled :=
  eexists; unfold fetchData, loadRequests; handler_simpl;
  rewrite <- !app_assoc; reflexivity.


(** All five bodies parse: the first four are stored as they are, and the
    fifth decides between the option list and an error caught with those
    four already in place. *)
Lemma load_parsed (o : Reads) (w : World State)
    (projectsData blogData testimonialsData settingsData categoriesData : JSON) :
  delivered (projectsRead o) = Some projectsData →
  delivered (blogRead o) = Some blogData →
  delivered (testimonialsRead o) = Some testimonialsData →
  delivered (settingsRead o) = Some settingsData →
  delivered (categoriesRead o) = Some categoriesData →
  fetchData o w =
    (Return (),
     match spread categoriesData with
     | Return categories =>
         {| state := {| projects := projectsData; blogPosts := blogData;
                        testimonials := testimonialsData;
                        settings := settingsData;
                        projectCategories := JString "All" :: categories |};
            effects := {| requests := requests (effects w) ++ loadRequests;
                          console := console (effects w);
                          alerts := alerts (effects w);
                          timeouts := timeouts (effects w) |} |}
     | Throw error =>
         {| state := {| projects := projectsData; blogPosts := blogData;
                        testimonials := testimonialsData;
                        settings := settingsData;
                        projectCategories := projectCategories (state w) |};
            effects := {| requests := requests (effects w) ++ loadRequests;
                          console := console (effects w) ++
                                       [("Error fetching data:", error)];
                          alerts := alerts (effects w);
                          timeouts := timeouts (effects w) |} |}
     end).
Proof.
  destruct o as [[?|[? ?]] [?|[? ?]] [?|[? ?]] [?|[? ?]] [?|[? ?]]];
    simpl; try discriminate.
  intros -> -> -> -> ->.
  unfold fetchData, loadRequests, evaluate. handler_simpl.
  destruct (spread categoriesData); cbn; by rewrite <- !app_assoc.
Qed.

(** On bodies of the endpoints' shapes this is the load of [App]: the
    typed load is the restriction of this one to well-shaped answers. *)
Lemma load_refines (o : App.Reads) (w : World App.State) :
  fetchData (encodeReads o) (encodeWorld w) =
    ((App.fetchData o w).1, encodeWorld (App.fetchData o w).2).
Proof.
  destruct (AppFacts.fetchData_cases o) as
    [(ps & bs & ts & st & cs & H1 & H2 & H3 & H4 & H5)|Hnone].
  - rewrite (AppFacts.fetchData_delivered o w ps bs ts st cs) by done.
    rewrite (load_parsed (encodeReads o) (encodeWorld w)
               (JArray (encodeProject <$> ps)) (JArray (encodeBlogPost <$> bs))
               (JArray (encodeTestimonial <$> ts)) (encodeSettings st)
               (encodeStrings cs)).
    + reflexivity.
    + destruct o as [[?|[? ?]] ? ? ? ?]; simpl in *; by simplify_eq.
    + destruct o as [? [?|[? ?]] ? ? ?]; simpl in *; by simplify_eq.
    + destruct o as [? ? [?|[? ?]] ? ?]; simpl in *; by simplify_eq.
    + destruct o as [? ? ? [?|[? ?]] ?]; simpl in *; by simplify_eq.
    + destruct o as [? ? ? ? [?|[? ?]]]; simpl in *; by simplify_eq.
  - clear Hnone.
    destruct o as [o1 o2 o3 o4 o5].
    unfold encodeReads, App.fetchData, fetchData, encodeWorld; simpl.
    destruct o1 as [e1|[? b1]]; [handler_simpl; reflexivity|].
    destruct o2 as [e2|[? b2]]; [handler_simpl; reflexivity|].
    destruct o3 as [e3|[? b3]]; [handler_simpl; reflexivity|].
    destruct o4 as [e4|[? b4]]; [handler_simpl; reflexivity|].
    destruct o5 as [e5|[? b5]]; [handler_simpl; reflexivity|].
    destruct b1; [|handler_simpl; reflexivity].
    destruct b2; [|handler_simpl; reflexivity].
    destruct b3; [|handler_simpl; reflexivity].
    destruct b4; [|handler_simpl; reflexivity].
    destruct b5; [|handler_simpl; reflexivity].
    unfold evaluate. handler_simpl. reflexivity.
Qed.

(** C2: the load is not all-or-nothing.  When the categories endpoint
    answers 500 with a JSON error object and the other four reads answer
    as they should, the projects, blog posts, testimonials and settings
    are replaced, the option list is left as it was, and the [TypeError]
    of spreading the object is what gets logged: four of the five slots
    have changed although a read failed. *)
Theorem fetchData_partial_update :
  let w' := exec (fetchData categoriesUnavailable) mounted in
  outcome (fetchData categoriesUnavailable) mounted = Return () ∧
  projects (state w') =
    JArray [JObject [("id", JString "p1"); ("title", JString "Villa");
                     ("category", JString "Exterior")]] ∧
  blogPosts (state w') = JArray [] ∧
  testimonials (state w') = JArray [] ∧
  settings (state w') = JObject [("name", JString "Rabiul Hasan")] ∧
  projectCategories (state w') = [] ∧
  console (effects w') =
    [("Error fetching data:", "TypeError: categoriesData is not iterable")] ∧
  alerts (effects w') = [] ∧
  projects (state w') ≠ projects (state mounted) ∧
  settings (state w') ≠ settings (state mounted).
Proof. by repeat split. Qed.

End AppRawFacts.

(** ** Failures, across both components *)



(** ** The public client over whole histories *)

Module AppBehaviour.
Import App AppView.

(** Membership in a list that is written out. *)
Ltac listed :=
  by repeat first [apply list_elem_of_here | apply list_elem_of_further].

(** What [handle] does to the state, event by event: a load replaces the
    five data slots or nothing; a submission touches the form and
    [isSubmitting]; every other event is its setter. *)
Lemma handle_Mount (o : Reads) (w : World State) :
  (∃ ps bs ts st cs,
     delivered (projectsRead o) = Some ps ∧
     state (exec (handle (Mount o)) w) = loadedState ps bs ts st cs (state w)) ∨
  state (exec (handle (Mount o)) w) = state w.
Proof.
  unfold exec, handle.
  destruct (AppFacts.fetchData_cases o) as
    [(ps & bs & ts & st & cs & H1 & H2 & H3 & H4 & H5)|Hnone].
  - left. exists ps, bs, ts, st, cs. split; [done|].
    by rewrite (AppFacts.fetchData_delivered o w ps bs ts st cs).
  - right. by destruct (AppFacts.fetchData_undelivered o w Hnone) as [error ->].
Qed.

Lemma handle_Submit (o : Outcome ()) (w : World State) :
  state (exec (handle (SubmitContactForm o)) w) =
    setIsSubmitting false
      (if accepted o then setContactForm emptyContactForm (state w) else state w).
Proof.
  unfold exec, handle. destruct (accepted o) eqn:Hacc.
  - by rewrite AppFacts.handleContactSubmit_accepted.
  - by rewrite AppFacts.handleContactSubmit_refused.
Qed.

Lemma handle_requests (e : Event) (w : World State) :
  requests (effects (exec (handle e) w)) =
    requests (effects w) ++ sent e (state w).
Proof.
  destruct e as [o| | | | | | | | | | | | | |o|];
    try (simpl; by rewrite app_nil_r).
  - unfold exec, handle, sent.
    destruct (AppFacts.fetchData_cases o) as
      [(ps & bs & ts & st & cs & H1 & H2 & H3 & H4 & H5)|Hnone].
    + by rewrite (AppFacts.fetchData_delivered o w ps bs ts st cs).
    + by destruct (AppFacts.fetchData_undelivered o w Hnone) as [error ->].
  - unfold exec, handle, sent. destruct (accepted o) eqn:Hacc.
    + by rewrite AppFacts.handleContactSubmit_accepted.
    + by rewrite AppFacts.handleContactSubmit_refused.
Qed.

Lemma run_requests (P : Request → Prop) (es : list Event) (w : World State) :
  Forall P (requests (effects w)) →
  (∀ e w', In e es → Forall P (sent e (state w'))) →
  Forall P (requests (effects (run es w))).
Proof.
  revert w. induction es as [|e es IH]; intros w Hw Hsent; simpl; [done|].
  apply IH.
  - rewrite handle_requests. apply Forall_app. split; [done|].
    apply Hsent. by left.
  - intros e' w' Hin. apply Hsent. by right.
Qed.

(** Whatever happens in the public client, and in whatever order, every
    request it has sent is one of the five reads of the load or the post
    to the contact endpoint: it never sends a PUT or a DELETE. *)
Theorem public_client_requests (es : list Event) :
  Forall (λ r, publicRequest r ∧ method r ≠ PUT ∧ method r ≠ DELETE)
    (requests (effects (run es mounted))).
Proof.
  apply run_requests; [by constructor|].
  intros e w' _. destruct e; simpl; try by constructor.
  - unfold loadRequests, publicRequest, loadRequests.
    repeat (apply Forall_cons; split;
            [split; [left; listed | by split] |]).
    by constructor.
  - apply Forall_cons. split; [|by constructor].
    split; [|by split]. right. by eexists.
Qed.

(** *** The active section *)

Lemma enabled_keeps_section (e : Event) (w : World State) :
  enabled (state w) e →
  activeSection (state w) ∈ sections →
  activeSection (state (exec (handle e) w)) ∈ sections.
Proof.
  intros He Hs.
  destruct e as [o| | | | | | | | | | | | | |o|]; simpl in He; try done.
  - destruct (handle_Mount o w) as [(ps & bs & ts & st & cs & _ & ->)| ->]; done.
  - by destruct He.
  - unfold sections. listed.
  - unfold sections. listed.
  - rewrite handle_Submit. by destruct (accepted o).
Qed.

Lemma usable_keeps_section (es : list Event) (w : World State) :
  usable w es →
  activeSection (state w) ∈ sections →
  activeSection (state (run es w)) ∈ sections.
Proof.
  revert w. induction es as [|e es IH]; intros w Hes Hs; simpl; [done|].
  destruct Hes as [He Hes]. apply IH; [done|].
  by apply enabled_keeps_section.
Qed.

(** In every state the user can bring the client to, the active section
    is one of the six the navigation offers.  So each list of navigation
    buttons that is rendered, the bar and, while the menu is open, the
    mobile menu, has exactly one highlighted button, the one of the active
    section: one highlighted button in all with the menu closed, two with
    it open.  And [main] shows seven views on "home" and a single view,
    never the hero, elsewhere: the default branch of the router is not
    reached. *)
Theorem active_section_offered (es : list Event) :
  usable mounted es →
  let s := state (run es mounted) in
  activeSection s ∈ sections ∧
  length (filter (λ b, highlighted b = true) (Navigation s)) = 1%nat ∧
  (∀ menu, mobileMenu s = Some menu →
           length (filter (λ b, highlighted b = true) menu) = 1%nat) ∧
  (mobileMenu s = None ↔ isMenuOpen s = false) ∧
  length (filter (λ b, highlighted b = true)
            (Navigation s ++ default [] (mobileMenu s))) =
    (if isMenuOpen s then 2%nat else 1%nat) ∧
  (∀ b, b ∈ Navigation s ++ default [] (mobileMenu s) →
        highlighted b = true → target b = activeSection s) ∧
  (activeSection s = "home" ∧ length (main s) = 7%nat ∨
   activeSection s ≠ "home" ∧ length (main s) = 1%nat ∧ main s ≠ [HeroSection]).
Proof.
  intros Hes s.
  assert (activeSection s ∈ sections) as Hs.
  { apply usable_keeps_section; [done|]. unfold sections. listed. }
  split; [done|].
  assert (∀ b, b ∈ Navigation s → highlighted b = true →
               target b = activeSection s) as Htarget.
  { intros b Hb Hh. unfold Navigation in Hb.
    apply list_elem_of_fmap in Hb as (section & -> & _). simpl in *.
    by apply String.eqb_eq in Hh. }
  assert (length (filter (λ b, highlighted b = true) (Navigation s)) = 1%nat)
    as Hone.
  { unfold Navigation, sections in *.
    rewrite !elem_of_cons, elem_of_nil in Hs.
    destruct Hs as [Hs|[Hs|[Hs|[Hs|[Hs|[Hs|[]]]]]]]; by rewrite Hs. }
  split; [exact Hone|].
  split; [|split; [|split; [|split]]].
  - unfold mobileMenu. intros menu. destruct (isMenuOpen s); [|done].
    by intros [= <-].
  - unfold mobileMenu. by destruct (isMenuOpen s).
  - unfold mobileMenu. destruct (isMenuOpen s); cbn [from_option id].
    + by rewrite filter_app, length_app, Hone.
    + by rewrite app_nil_r.
  - intros b Hb. apply Htarget.
    unfold mobileMenu in Hb. destruct (isMenuOpen s); cbn [from_option id] in Hb.
    + apply elem_of_app in Hb. tauto.
    + by rewrite app_nil_r in Hb.
  - clear Htarget Hone. unfold main, renderSection, sections in *.
    rewrite !elem_of_cons, elem_of_nil in Hs.
    destruct Hs as [Hs|[Hs|[Hs|[Hs|[Hs|[Hs|[]]]]]]]; rewrite Hs;
      first [by left | by right].
Qed.

Lemma active_section_offered_witness :
  usable mounted [ClickNav "blog"; ClickMenuButton] ∧
  length (filter (λ b, highlighted b = true)
            (Navigation (state (run [ClickNav "blog"; ClickMenuButton] mounted)) ++
             default []
               (mobileMenu (state (run [ClickNav "blog"; ClickMenuButton] mounted)))))
    = 2%nat.
Proof.
  assert (usable mounted [ClickNav "blog"; ClickMenuButton]) as Hes.
  { simpl. unfold sections. repeat split; listed. }
  split; [exact Hes|].
  exact (proj1 (proj2 (proj2 (proj2 (proj2 (active_section_offered _ Hes)))))).
Defined.

(** *** What is picked is on offer *)

Lemma projectCards_loaded (s : State) (p : Project) :
  p ∈ projectCards s → p ∈ projects s.
Proof.
  unfold projectCards, filteredProjects.
  destruct (String.eqb (projectFilter s) "All"); [done|].
  rewrite list_elem_of_filter. tauto.
Qed.

Lemma untouched_valid (s : State) : untouched s → selectionsValid s.
Proof.
  intros (_ & _ & _ & Hp & Hq & Hf). unfold selectionsValid.
  rewrite Hp, Hq. repeat split; try done. by left.
Qed.

Lemma enabled_keeps_untouched (e : Event) (w : World State) :
  (∀ o, e ≠ Mount o) →
  enabled (state w) e →
  untouched (state w) →
  untouched (state (exec (handle e) w)).
Proof.
  intros Hne He Hu. pose proof Hu as (Hps & Hbs & Hcs & Hp & Hq & Hf).
  destruct e as [o| | | | | | |p| |q| | | | |o|]; simpl in He; try done.
  - by destruct (Hne o).
  - destruct He as [_ Hc]. rewrite Hcs in Hc. by apply elem_of_nil in Hc.
  - destruct He as [_ Hc]. apply projectCards_loaded in Hc.
    rewrite Hps in Hc. by apply elem_of_nil in Hc.
  - destruct He as [_ Hc]. rewrite Hbs in Hc. by apply elem_of_nil in Hc.
  - rewrite handle_Submit. by destruct (accepted o).
Qed.

Lemma enabled_keeps_selections (e : Event) (w : World State) :
  (∀ o, e ≠ Mount o) →
  enabled (state w) e →
  selectionsValid (state w) →
  selectionsValid (state (exec (handle e) w)).
Proof.
  intros Hne He Hv. pose proof Hv as (Hp & Hq & Hf).
  destruct e as [o| | | | | |c|p| |q| | | | |o|]; simpl in He; try done.
  - by destruct (Hne o).
  - destruct He as [_ Hc]. repeat split; try done. by right.
  - destruct He as [_ Hc]. apply projectCards_loaded in Hc.
    repeat split; try done. by intros p' [= <-].
  - destruct He as [_ Hc]. repeat split; try done. by intros q' [= <-].
  - rewrite handle_Submit. by destruct (accepted o).
Qed.

Lemma Mount_keeps_selections (o : Reads) (w : World State) :
  untouched (state w) →
  selectionsValid (state (exec (handle (Mount o)) w)).
Proof.
  intros Hu. pose proof Hu as (Hps & Hbs & Hcs & Hp & Hq & Hf).
  destruct (handle_Mount o w) as [(ps & bs & ts & st & cs & _ & ->)| ->].
  - unfold selectionsValid. simpl. rewrite Hp, Hq, Hf.
    repeat split; try done. by left.
  - by apply untouched_valid.
Qed.

Lemma usable_keeps_selections (es : list Event) (w : World State) :
  usable w es →
  loads es = 0%nat →
  selectionsValid (state w) →
  selectionsValid (state (run es w)).
Proof.
  revert w. induction es as [|e es IH]; intros w Hes Hl Hv; simpl; [done|].
  destruct Hes as [He Hes].
  assert (∀ o, e ≠ Mount o) as Hne by (intros o ->; discriminate Hl).
  apply IH; [done| |by apply enabled_keeps_selections].
  by destruct e.
Qed.

Lemma usable_from_untouched (es : list Event) (w : World State) :
  usable w es →
  (loads es ≤ 1)%nat →
  untouched (state w) →
  selectionsValid (state (run es w)).
Proof.
  revert w. induction es as [|e es IH]; intros w Hes Hl Hu; simpl.
  { by apply untouched_valid. }
  destruct Hes as [He Hes].
  assert ((∃ o, e = Mount o) ∨ ∀ o, e ≠ Mount o) as [[o ->]|Hne]
    by (destruct e; eauto).
  - simpl in Hl. apply usable_keeps_selections; [done|lia|].
    by apply Mount_keeps_selections.
  - apply IH; [done| |by apply enabled_keeps_untouched].
    by destruct e; try done; destruct (Hne o).
Qed.

(** With the load settling once, as the mount effect has it, whatever the
    user does the open project modal shows a project of the loaded
    collection, the open blog modal a post of the loaded posts, and the
    filter is "All" or one of the category buttons on offer. *)
Theorem selections_on_offer (es : list Event) :
  usable mounted es →
  (loads es ≤ 1)%nat →
  let s := state (run es mounted) in
  (∀ p, selectedProject s = Some p → p ∈ projects s) ∧
  (∀ q, selectedBlogPost s = Some q → q ∈ blogPosts s) ∧
  (projectFilter s = "All" ∨ projectFilter s ∈ projectCategories s).
Proof.
  intros Hes Hl. by apply (usable_from_untouched es mounted).
Qed.

Lemma selections_on_offer_witness :
  usable mounted [ClickNav "portfolio"; Mount freshCategories;
                  ClickCategory "Exterior"; ClickProject exteriorVilla] ∧
  (loads [ClickNav "portfolio"; Mount freshCategories;
          ClickCategory "Exterior"; ClickProject exteriorVilla] ≤ 1)%nat ∧
  selectionsValid
    (state (run [ClickNav "portfolio"; Mount freshCategories;
                 ClickCategory "Exterior"; ClickProject exteriorVilla] mounted)).
Proof.
  assert (usable mounted [ClickNav "portfolio"; Mount freshCategories;
                          ClickCategory "Exterior"; ClickProject exteriorVilla])
    as Hes.
  { simpl. unfold sections. repeat split; listed. }
  assert (loads [ClickNav "portfolio"; Mount freshCategories;
                 ClickCategory "Exterior"; ClickProject exteriorVilla] ≤ 1)%nat
    as Hl by (simpl; lia).
  split; [exact Hes|]. split; [exact Hl|].
  exact (selections_on_offer _ Hes Hl).
Defined.

(** *** The category buttons *)

Lemma projectCards_of_filter (c : string) (s : State) (p : Project) :
  p ∈ projectCards (setProjectFilter c s) ↔
  p ∈ projects s ∧ (c = "All" ∨ project_category p = c).
Proof.
  unfold projectCards, filteredProjects. simpl.
  destruct (String.eqb_spec c "All") as [->|Hne].
  - tauto.
  - rewrite list_elem_of_filter. tauto.
Qed.

(** As long as the categories endpoint answers with the categories of the
    projects sent alongside, the category buttons cover the collection
    without dead ends: every button but "All" shows at least one project,
    every project has the button of its category and is shown under it,
    and no project is shown under two different buttons other than
    "All". *)
Theorem category_buttons_cover (es : list Event) :
  Forall served es →
  let s := state (run es mounted) in
  (∀ c, c ∈ projectCategories s → c ≠ "All" →
        projectCards (setProjectFilter c s) ≠ []) ∧
  (∀ p, p ∈ projects s →
        project_category p ∈ projectCategories s ∧
        p ∈ projectCards (setProjectFilter (project_category p) s)) ∧
  (∀ c1 c2 p, c1 ≠ "All" → c2 ≠ "All" → c1 ≠ c2 →
        p ∈ projectCards (setProjectFilter c1 s) →
        p ∉ projectCards (setProjectFilter c2 s)).
Proof.
  intros Hserved s.
  assert (optionsInvariant s) as Hinv.
  { apply AppFacts.run_keeps_invariant; [done|]. by left. }
  split; [|split].
  - intros c Hc Hne Hempty.
    destruct Hinv as [[_ Hcs]|Hopts].
    { rewrite Hcs in Hc. by apply elem_of_nil in Hc. }
    assert (c ∈ categoryOptions s) as Hin
      by (unfold categoryOptions; by rewrite elem_of_list_to_set).
    rewrite Hopts, elem_of_union, elem_of_singleton in Hin.
    destruct Hin as [?|Hin]; [done|].
    unfold projectCategorySet in Hin.
    rewrite elem_of_list_to_set, list_elem_of_fmap in Hin.
    destruct Hin as (p & -> & Hp).
    assert (p ∈ projectCards (setProjectFilter (project_category p) s)) as Hshown
      by (rewrite projectCards_of_filter; auto).
    rewrite Hempty in Hshown. by apply elem_of_nil in Hshown.
  - intros p Hp. split; [|rewrite projectCards_of_filter; auto].
    destruct Hinv as [[Hps _]|Hopts].
    { rewrite Hps in Hp. by apply elem_of_nil in Hp. }
    assert (project_category p ∈ categoryOptions s) as Hin.
    { rewrite Hopts, elem_of_union. right. unfold projectCategorySet.
      rewrite elem_of_list_to_set, list_elem_of_fmap. eauto. }
    unfold categoryOptions in Hin. by rewrite elem_of_list_to_set in Hin.
  - intros c1 c2 p H1 H2 Hne.
    rewrite !projectCards_of_filter.
    intros [_ [?|Hc1]] [_ [?|Hc2]]; congruence.
Qed.

Lemma category_buttons_cover_witness :
  Forall served [Mount freshCategories; ClickCategory "Exterior"] ∧
  (∀ c, c ∈ projectCategories
              (state (run [Mount freshCategories; ClickCategory "Exterior"] mounted)) →
        c ≠ "All" →
        projectCards
          (setProjectFilter c
             (state (run [Mount freshCategories; ClickCategory "Exterior"] mounted)))
          ≠ []).
Proof.
  assert (Forall served [Mount freshCategories; ClickCategory "Exterior"])
    as Hserved.
  { repeat constructor. intros ps cs Hps Hcs. simpl in Hps, Hcs.
    injection Hps as <-. injection Hcs as <-. reflexivity. }
  split; [exact Hserved|].
  exact (proj1 (category_buttons_cover _ Hserved)).
Defined.

(** *** The star rows *)

Lemma Array_length (n : Z) :
  0 ≤ n ≤ 4294967295 →
  Array_ n = Return (replicate (Z.to_nat n) ()).
Proof.
  intros [H0 H1]. unfold Array_.
  apply Z.leb_le in H0, H1. by rewrite H0, H1.
Qed.

Lemma Array_RangeError (n : Z) :
  n < 0 ∨ 4294967295 < n →
  Array_ n = Throw "RangeError: Invalid array length".
Proof.
  intros H. unfold Array_.
  destruct (0 <=? n) eqn:H0; [|done].
  destruct (n <=? 4294967295) eqn:H1; [|done].
  apply Z.leb_le in H0, H1. lia.
Qed.

Lemma starRow_length (t : Testimonial) :
  0 ≤ rating t ≤ 4294967295 →
  ∃ row, starRow t = Return row ∧ Z.of_nat (length row) = rating t.
Proof.
  intros H. unfold starRow. rewrite (Array_length _ H).
  eexists. split; [done|].
  rewrite length_fmap, length_replicate. lia.
Qed.

Lemma testimonialCard_row (t : Testimonial) (row : list Star) :
  starRow t = Return row →
  testimonialCard t =
    Return {| card_name := testimonial_name t; card_role := role t;
              card_company := company t;
              card_content := testimonial_content t;
              card_stars := row |}.
Proof. intros H. unfold testimonialCard. by rewrite H. Qed.

Lemma testimonialCard_throw (t : Testimonial) (e : string) :
  starRow t = Throw e → testimonialCard t = Throw e.
Proof. intros H. unfold testimonialCard. by rewrite H. Qed.

(** A testimonial gets as many stars as its rating says, with no cap at
    five, as long as the rating is between 0 and 2^32 - 1; a negative (or
    larger) rating makes the star row throw a RangeError.  The section
    renders a card per testimonial, in order, when every rating is in
    range, and throws when one is not; it is part of the page on "home"
    only. *)
Theorem star_rows (s : State) :
  (∀ t, 0 ≤ rating t ≤ 4294967295 →
        ∃ row, starRow t = Return row ∧ Z.of_nat (length row) = rating t) ∧
  (∀ t, rating t < 0 ∨ 4294967295 < rating t →
        starRow t = Throw "RangeError: Invalid array length") ∧
  (Forall (λ t, 0 ≤ rating t ≤ 4294967295) (testimonials s) →
     ∃ cards,
       AppView.TestimonialsSection s = Return cards ∧
       card_name <$> cards = testimonial_name <$> testimonials s ∧
       (λ c, Z.of_nat (length (card_stars c))) <$> cards =
         rating <$> testimonials s) ∧
  (Exists (λ t, rating t < 0 ∨ 4294967295 < rating t) (testimonials s) →
     AppView.TestimonialsSection s = Throw "RangeError: Invalid array length") ∧
  (App.TestimonialsSection ∈ main s ↔ activeSection s = "home").
Proof.
  split; [exact starRow_length|].
  assert (∀ t, rating t < 0 ∨ 4294967295 < rating t →
               starRow t = Throw "RangeError: Invalid array length") as Hbad.
  { intros t H. unfold starRow. by rewrite (Array_RangeError _ H). }
  split; [exact Hbad|].
  unfold AppView.TestimonialsSection.
  split; [|split].
  - induction (testimonials s) as [|t ts IH]; intros Hall.
    + by exists [].
    + apply Forall_cons in Hall as [Ht Hts].
      destruct (IH Hts) as (cards & Hcards & Hnames & Hstars).
      destruct (starRow_length t Ht) as (row & Hrow & Hlen).
      cbn [mapThrowing]. rewrite (testimonialCard_row t row Hrow), Hcards.
      eexists. split; [done|]. rewrite !fmap_cons. cbn [card_name card_stars].
      by rewrite Hnames, Hstars, Hlen.
  - induction (testimonials s) as [|t ts IH]; intros Hsome.
    + by apply Exists_nil in Hsome.
    + cbn [mapThrowing].
      destruct (starRow t) as [row|error] eqn:Hrow.
      * rewrite (testimonialCard_row t row Hrow).
        apply Exists_cons in Hsome as [Ht|Hts].
        { by rewrite (Hbad t Ht) in Hrow. }
        by rewrite (IH Hts).
      * rewrite (testimonialCard_throw t error Hrow).
        assert (¬ (0 ≤ rating t ≤ 4294967295)) as Hout.
        { intros Hin. destruct (starRow_length t Hin) as (? & Heq & _).
          by rewrite Heq in Hrow. }
        rewrite Hbad in Hrow by lia. by injection Hrow as <-.
  - unfold main, renderSection.
    destruct (String.eqb_spec (activeSection s) "home") as [Hhome|Hother].
    + split; [done|]. intros _. listed.
    + split; [|done]. rewrite elem_of_cons, elem_of_nil.
      intros [Hview|[]].
      repeat match type of Hview with
             | _ = (if ?b then _ else _) => destruct b
             end; discriminate.
Qed.

End AppBehaviour.

(** ** The admin console over whole histories *)

Module AdminBehaviour.
Import AdminPanel AdminView.

(** The state an event of the console leaves, by what the request gave. *)
Lemma adminHandle_state (e : AdminEvent) (w : World State) :
  state (exec (adminHandle e) w) =
    match e with
    | AdminMount => setLoading true (state w)
    | ReadsSettle o =>
        match adminDelivered o with
        | Some (st, ps, bs, ts) => refreshedState st ps bs ts (state w)
        | None => failedState "Error loading data" (state w)
        end
    | SubmitSettings upd o =>
        if accepted o
        then setLoading false
               (setSettings upd
                  (setMessage "Settings updated successfully!" (state w)))
        else failedState "Error updating settings" (state w)
    | ClickDelete confirmed type id o =>
        if confirmed
        then if accepted o
             then setLoading false
                    (setMessage (type ++ " deleted successfully!")%string (state w))
             else failedState ("Error deleting " ++ type)%string (state w)
        else state w
    | MessageTimeout => setMessage "" (state w)
    | ClickTab tab => setActiveTab tab (state w)
    end.
Proof.
  destruct e as [|o|upd o|confirmed type id o| |tab]; cbn [adminHandle];
    try done.
  - unfold exec.
    destruct (AdminFacts.adminDelivered_cases o)
      as [(st & ps & bs & ts & _ & _ & _ & _ & Hd)|[_ Hd]]; rewrite Hd.
    + by rewrite (AdminFacts.fetchData_settle_delivered o w st ps bs ts Hd).
    + by destruct (AdminFacts.fetchData_settle_undelivered o w Hd) as [error ->].
  - unfold exec. destruct (accepted o) eqn:Hacc.
    + by rewrite AdminFacts.updateSettings_accepted.
    + by rewrite AdminFacts.updateSettings_refused.
  - unfold exec. destruct confirmed; [|done].
    destruct (accepted o) eqn:Hacc.
    + by rewrite AdminFacts.deleteItem_accepted.
    + by rewrite AdminFacts.deleteItem_refused.
Qed.



(** *** The message timer *)


(** *** The collections *)

Lemma lastCollections_cons current (e : AdminEvent) (es : list AdminEvent) :
  lastCollections current (e :: es) =
    lastCollections (lastCollections current [e]) es.
Proof.
  destruct e as [|o|upd o|confirmed type id o| |tab]; simpl; try done.
  by destruct (adminDelivered o) as [[[[? ?] ?] ?]|].
Qed.

Lemma adminHandle_collections (e : AdminEvent) (w : World State) :
  collections (state (exec (adminHandle e) w)) =
    lastCollections (collections (state w)) [e].
Proof.
  rewrite adminHandle_state.
  destruct e as [|o|upd o|confirmed type id o| |tab]; simpl; try done.
  - by destruct (adminDelivered o) as [[[[? ?] ?] ?]|].
  - by destruct (accepted o).
  - by destruct confirmed, (accepted o).
Qed.

(** The console never edits its lists itself.  Over any history the
    projects, blog posts and testimonials it holds are those of the last
    load that delivered all four reads (or the ones it started with); in
    particular a delete, accepted or not, leaves the deleted item in the
    list, and so does everything else but such a load. *)
Theorem collections_follow_loads (es : list AdminEvent) (w : World State) :
  collections (state (adminRun es w)) = lastCollections (collections (state w)) es ∧
  (∀ e, (∀ o, e ≠ ReadsSettle o) →
        collections (state (exec (adminHandle e) w)) = collections (state w)) ∧
  (∀ o, adminDelivered o = None →
        collections (state (exec (adminHandle (ReadsSettle o)) w)) =
          collections (state w)).
Proof.
  split; [|split].
  - revert w. induction es as [|e es IH]; intros w; [done|].
    cbn [adminRun]. by rewrite IH, adminHandle_collections, <- lastCollections_cons.
  - intros e Hne. rewrite adminHandle_collections.
    destruct e; try done. by destruct (Hne o).
  - intros o Hd. rewrite adminHandle_collections. simpl. by rewrite Hd.
Qed.

(** *** The loading flag and the content area *)

(** The spinner covers a request only while its own handler runs.  It is
    up from the moment a load starts and down after a load settles, after
    a settings update and after a confirmed delete, whatever they gave.
    Since an accepted delete does not await the refresh it starts, the
    lists are back on screen, with the rows and Delete buttons they had
    before the delete, while the four reads of the refresh are still out. *)
Theorem loading_covers_handler_only (w : World State) :
  contentArea (state (exec fetchData_start w)) = None ∧
  (∀ o, loading (state (exec (fetchData_settle o) w)) = false) ∧
  (∀ upd o, loading (state (exec (updateSettings upd o) w)) = false) ∧
  (∀ type id o, loading (state (exec (deleteItem true type id o) w)) = false) ∧
  (∀ type id o, accepted o = true →
     let w' := exec (deleteItem true type id o) w in
     (∃ before, requests (effects w') = before ++ refreshRequests) ∧
     contentArea (state w') = Some (renderTabContent (state w)) ∧
     deleteButtons (state w') = deleteButtons (setLoading false (state w)) ∧
     collections (state w') = collections (state w)).
Proof.
  split; [|split; [|split; [|split]]].
  - unfold exec. by rewrite AdminFacts.fetchData_start_result.
  - intros o.
    pose proof (adminHandle_state (ReadsSettle o) w) as Hstate.
    cbn [adminHandle] in Hstate. rewrite Hstate.
    by destruct (adminDelivered o) as [[[[? ?] ?] ?]|].
  - intros upd o.
    pose proof (adminHandle_state (SubmitSettings upd o) w) as Hstate.
    cbn [adminHandle] in Hstate. rewrite Hstate.
    by destruct (accepted o).
  - intros type id o.
    pose proof (adminHandle_state (ClickDelete true type id o) w) as Hstate.
    cbn [adminHandle] in Hstate. rewrite Hstate.
    by destruct (accepted o).
  - intros type id o Hacc w'. subst w'. unfold exec.
    rewrite (AdminFacts.deleteItem_accepted type id o w Hacc). simpl.
    split; [|done].
    exists (requests (effects w) ++ [deleteRequest type id]).
    by rewrite <- app_assoc.
Qed.

Lemma loading_covers_handler_only_sample :
  let listed := adminRun [ReadsSettle {|
                   settingsRead := Resolved {| status := 200; json_body := Some ∅ |};
                   projectsRead := Resolved {| status := 200;
                                               json_body := Some [exteriorVilla] |};
                   blogRead := Resolved {| status := 200; json_body := Some [] |};
                   testimonialsRead := Resolved {| status := 200;
                                                   json_body := Some [] |} |};
                 ClickTab "projects"] mounted in
  let deleted := exec (deleteItem true "projects" "p1"
                         (Resolved {| status := 204; json_body := None |})) listed in
  deleteButtons (state listed) = [("projects", "p1")] ∧
  deleteButtons (state deleted) = [("projects", "p1")] ∧
  loading (state deleted) = false.
Proof. by repeat split. Qed.

(** *** The settings form *)





Example settings_form_sitting_sample :
  let typed := applyEdits [("name", "A"); ("title", "B"); ("name", "C")]
                 (formData_initial (state mounted)) in
  let saved := exec (handleSubmit typed
                       (Resolved {| status := 200; json_body := None |})) mounted in
  let refused := exec (handleSubmit typed
                         (Resolved {| status := 500; json_body := None |})) mounted in
  inputValue "name" typed = "C" ∧ inputValue "title" typed = "B" ∧
  mountedForm (state saved) = Some typed ∧
  mountedForm (state refused) = Some ∅.
Proof. by repeat split. Qed.

End AdminBehaviour.
